(** * Token authentication middleware for go-json-rest

    A shallow embedding of the package [tokenauth] and the properties of its
    auth gate, header decoder and credential primitives.

    The repository holds two revisions of the package:
    - [src/token.go]: the gate reads the Authorization header only, the
      header decoder returns the decoded bytes, and the token entropy is a
      field of the middleware;
    - [src/unnamed/part_001]: the gate also accepts an [access_token] query
      parameter, the header decoder returns the value as it came over the
      wire, and the token entropy is a package variable.
    Each revision is embedded in a module of its own ([TokenGo], [Part001]).

    The Go standard library pieces the package calls (URL-safe base64,
    [strings.SplitN], [subtle.ConstantTimeCompare], [crypto/rand], [make])
    and the go-json-rest request and response types are modelled in the
    modules that come first.  A Go [string] is a sequence of bytes: here a
    [string] of 8-bit [ascii] characters. *)

From Stdlib Require Import ZArith Ascii String Lia.
From stdpp Require Import gmap strings list.

Open Scope Z_scope.

(** ** Go values shared by both revisions *)

Module Go.

(** [error] values are made with [errors.New]; the message identifies them. *)
Definition error : Type := string.

(** [uint(b)] for a byte [b]. *)
Definition uint (b : ascii) : Z := Z.of_N (N_of_ascii b).

(** [byte(v)]: conversion of an unsigned integer to a byte keeps the low
    eight bits. *)
Definition byte (v : Z) : ascii := ascii_of_N (Z.to_N (v mod 256)).

(** [uint32(v)] wrap-around. *)
Definition uint32 (v : Z) : Z := v mod 4294967296.

(** [make([]byte, n)]: a slice of [n] zero bytes; a negative length makes
    the runtime panic ("makeslice: len out of range"), rendered as [None]. *)
Definition make_bytes (n : Z) : option string :=
  if n <? 0 then None
  else Some (string_of_list_ascii (replicate (Z.to_nat n) "000"%char)).

(** The result of a call that may panic instead of returning. *)
Inductive outcome (A : Type) : Type :=
| Panics : outcome A
| Returns : A -> outcome A.
Arguments Panics {A}.
Arguments Returns {A} _.

End Go.

(** ** [strings.SplitN(s, sep, 2)] for a one-byte separator *)

Module Strings.

(** [SplitN2 s sep] is [strings.SplitN(s, string(sep), 2)]: the text before
    the first [sep] and the text after it, or [s] alone when there is no
    [sep] in it. *)
Fixpoint SplitN2 (s : string) (sep : ascii) : list string :=
  match s with
  | EmptyString => [EmptyString]
  | String c rest =>
      if Ascii.eqb c sep then [EmptyString; rest]
      else match SplitN2 rest sep with
           | head :: tail => String c head :: tail
           | [] => []
           end
  end.

(** [strings.Contains]-like test for a single byte, used to state facts
    about [SplitN2]. *)
Fixpoint has_byte (s : string) (c : ascii) : bool :=
  match s with
  | EmptyString => false
  | String d rest => Ascii.eqb d c || has_byte rest c
  end.

End Strings.

(** ** [encoding/base64], [URLEncoding] *)

Module Base64.
Import Go.

(** The URL-safe alphabet of RFC 4648. *)
Definition encodeURL : string :=
  "ABCDEFGHIJKLMNOPQRSTUVWXYZabcdefghijklmnopqrstuvwxyz0123456789-_".

(** [StdPadding]. *)
Definition padChar : ascii := "="%char.

(** [enc.encode[v]]. *)
Definition encode (v : Z) : ascii :=
  match String.get (Z.to_nat v) encodeURL with
  | Some c => c
  | None => "000"%char
  end.

Fixpoint index_from (i : Z) (c : ascii) (s : string) : Z :=
  match s with
  | EmptyString => 255
  | String d rest => if Ascii.eqb c d then i else index_from (i + 1) c rest
  end.

(** [enc.decodeMap[c]]: the position of [c] in the alphabet, [0xFF] for a
    byte that is not in it. *)
Definition decodeMap (c : ascii) : Z := index_from 0 c encodeURL.

(** [enc.encode[val>>k&0x3F]]. *)
Definition sextet (val k : Z) : ascii := encode (Z.land (Z.shiftr val k) 63).

(** The 24-bit group [uint(s0)<<16 | uint(s1)<<8 | uint(s2)]. *)
Definition val3 (s0 s1 s2 : ascii) : Z :=
  Z.lor (Z.lor (Z.shiftl (uint s0) 16) (Z.shiftl (uint s1) 8)) (uint s2).

(** [enc.EncodeToString]: full groups of three bytes give four symbols; a
    remainder of one or two bytes gives two or three symbols and padding. *)
Fixpoint EncodeToString (src : string) : string :=
  match src with
  | EmptyString => EmptyString
  | String s0 EmptyString =>
      let val := Z.shiftl (uint s0) 16 in
      String (sextet val 18) (String (sextet val 12)
        (String padChar (String padChar EmptyString)))
  | String s0 (String s1 EmptyString) =>
      let val := Z.lor (Z.shiftl (uint s0) 16) (Z.shiftl (uint s1) 8) in
      String (sextet val 18) (String (sextet val 12)
        (String (sextet val 6) (String padChar EmptyString)))
  | String s0 (String s1 (String s2 rest)) =>
      let val := val3 s0 s1 s2 in
      String (sextet val 18) (String (sextet val 12)
        (String (sextet val 6) (String (sextet val 0) (EncodeToString rest))))
  end.

Definition is_newline (c : ascii) : bool :=
  Ascii.eqb c "010"%char || Ascii.eqb c "013"%char.

Fixpoint skip_newlines (s : string) : string :=
  match s with
  | String c rest => if is_newline c then skip_newlines rest else s
  | EmptyString => EmptyString
  end.

Definition is_empty (s : string) : bool :=
  match s with
  | EmptyString => true
  | String _ _ => false
  end.

(** [uint(dbuf[0])<<18 | uint(dbuf[1])<<12 | uint(dbuf[2])<<6 | uint(dbuf[3])]. *)
Definition assemble (d0 d1 d2 d3 : Z) : Z :=
  Z.lor (Z.lor (Z.lor (Z.shiftl d0 18) (Z.shiftl d1 12)) (Z.shiftl d2 6)) d3.

(** The bytes of one quantum: [dlen - 1] bytes for [dlen] symbols read,
    the missing symbols counting as zero. *)
Definition quantum (dbuf : list Z) : string :=
  let d i := nth i dbuf 0 in
  let val := assemble (d 0%nat) (d 1%nat) (d 2%nat) (d 3%nat) in
  string_of_list_ascii
    (take (length dbuf - 1)
       [byte (Z.shiftr val 16); byte (Z.shiftr val 8); byte (Z.shiftr val 0)]).

(** [enc.Decode], quantum by quantum; [dbuf] holds the symbols of the
    current quantum.  Line feeds and carriage returns are skipped, padding
    is required and closes the input, the non-strict mode does not look at
    the unused low bits.  [None] is a [CorruptInputError]. *)
Fixpoint decode (dbuf : list Z) (src : string) : option string :=
  match src with
  | EmptyString =>
      match dbuf with
      | [] => Some EmptyString
      | _ :: _ => None
      end
  | String c rest =>
      let out := decodeMap c in
      if negb (out =? 255) then
        let dbuf' := dbuf ++ [out] in
        if (length dbuf' =? 4)%nat
        then option_map (String.append (quantum dbuf')) (decode [] rest)
        else decode dbuf' rest
      else if is_newline c then decode dbuf rest
      else if negb (Ascii.eqb c padChar) then None
      else
        match dbuf with
        | [_; _] =>
            match skip_newlines rest with
            | EmptyString => None
            | String c' rest' =>
                if negb (Ascii.eqb c' padChar) then None
                else if is_empty (skip_newlines rest') then Some (quantum dbuf)
                else None
            end
        | [_; _; _] =>
            if is_empty (skip_newlines rest) then Some (quantum dbuf) else None
        | _ => None
        end
  end.

(** [enc.DecodeString]. *)
Definition DecodeString (s : string) : option string := decode [] s.

(** A symbol of the alphabet. *)
Definition symbol (c : ascii) : bool := negb (decodeMap c =? 255).


(** The text without its line feeds and carriage returns. *)
Fixpoint strip_newlines (s : string) : string :=
  match s with
  | EmptyString => EmptyString
  | String c rest =>
      if is_newline c then strip_newlines rest
      else String c (strip_newlines rest)
  end.

(** The shape of padded base64: groups of four symbols, the last group
    possibly two symbols and two paddings or three symbols and one. *)
Fixpoint padded_groups (s : string) : bool :=
  match s with
  | EmptyString => true
  | String c0 (String c1 (String c2 (String c3 rest))) =>
      symbol c0 && symbol c1 &&
      (if symbol c2 then
         if symbol c3 then padded_groups rest
         else Ascii.eqb c3 padChar && is_empty rest
       else Ascii.eqb c2 padChar && Ascii.eqb c3 padChar && is_empty rest)
  | _ => false
  end.

(** Syntactically valid URL-safe base64, as RFC 4648 writes it with
    padding, line breaks allowed anywhere. *)
Definition well_formed (s : string) : bool := padded_groups (strip_newlines s).

End Base64.

(** ** [crypto/subtle] *)

Module Subtle.
Import Go.

(** [ConstantTimeByteEq(x, y) = int((uint32(x^y) - 1) >> 31)]. *)
Definition ConstantTimeByteEq (x y : Z) : Z :=
  Z.shiftr (uint32 (uint32 (Z.lxor x y) - 1)) 31.

(** The loop [v |= x[i] ^ y[i]] over two slices of the same length. *)
Fixpoint xor_fold (v : Z) (x y : string) : Z :=
  match x, y with
  | String a x', String b y' => xor_fold (Z.lor v (Z.lxor (uint a) (uint b))) x' y'
  | _, _ => v
  end.

Definition ConstantTimeCompare (x y : string) : Z :=
  if negb (String.length x =? String.length y)%nat then 0
  else ConstantTimeByteEq (xor_fold 0 x y) 0.

End Subtle.

(** ** [crypto/rand] *)

Module Rand.
Import Go.

(** The system's random source at the time of one call: either it delivers
    bytes ([Entropy f] puts [f i] at index [i] of the buffer) or it fails
    with an error. *)
Inductive Source : Type :=
| Entropy (f : nat -> ascii)
| Exhausted (err : error).

(** [rand.Read(b)]: fills [b] whole and returns no error, or returns the
    source's error. *)
Definition Read (src : Source) (b : string) : string * option error :=
  match src with
  | Entropy f => (string_of_list_ascii (map f (seq 0 (String.length b))), None)
  | Exhausted err => (b, Some err)
  end.

End Rand.

(** ** [crypto/md5] *)

Module Md5.

(** The result type of [md5.Sum], [[16]byte]: sixteen bytes.  The digest
    function itself is a parameter of what uses it. *)
Record Sum16 : Type := mkSum16 {
  sum_bytes : string;
  sum_size : String.length sum_bytes = 16%nat
}.

End Md5.

(** ** go-json-rest: requests, responses, handlers *)

Module Rest.

(** [http.Header] and [url.Values] are maps from a name to the list of its
    values, [gmap string (list string)].  Header names are kept as the
    package writes them. *)

(** [Get]: the first value under the name, the empty string when there is
    none. *)
Definition Get (v : gmap string (list string)) (key : string) : string :=
  match v !! key with
  | Some (first :: _) => first
  | _ => EmptyString
  end.

(** [Set]: the name gets this single value. *)
Definition Set_ (v : gmap string (list string)) (key value : string)
  : gmap string (list string) :=
  <[key := [value]]> v.

(** A value stored in [request.Env], a [map[string]interface{}]. *)
Inductive any : Type :=
| AnyString (s : string)
| AnyOther (tag : N).

(** The parts of a [*rest.Request] the middleware reads and writes. *)
Record Request : Type := mkRequest {
  URL_Query : gmap string (list string);
  Header : gmap string (list string);
  Env : gmap string any
}.

(** [request.Env[key] = value]. *)
Definition set_Env (request : Request) (key : string) (value : any) : Request :=
  {| URL_Query := URL_Query request;
     Header := Header request;
     Env := <[key := value]> (Env request) |}.

(** What a [rest.ResponseWriter] has been given so far: the response
    headers, the status code, and the message of the error body. *)
Record ResponseWriter : Type := mkResponseWriter {
  RespHeader : gmap string (list string);
  Status : option Z;
  ErrorBody : option string
}.

Definition StatusUnauthorized : Z := 401.

(** [rest.Error(w, msg, code)]: writes the status code and a body that
    carries the message. *)
Definition Error (w : ResponseWriter) (msg : string) (code : Z) : ResponseWriter :=
  {| RespHeader := RespHeader w; Status := Some code; ErrorBody := Some msg |}.

(** [writer.Header().Set(key, value)]. *)
Definition Header_Set (w : ResponseWriter) (key value : string) : ResponseWriter :=
  {| RespHeader := Set_ (RespHeader w) key value;
     Status := Status w;
     ErrorBody := ErrorBody w |}.

(** [rest.HandlerFunc]: a handler works on the writer and the request it is
    given. *)
Definition HandlerFunc : Type := ResponseWriter -> Request -> ResponseWriter * Request.

(** The calls a gate makes while it serves one request, in order. *)
Inductive Call : Type :=
| CallDecodeAuthHeader (header : string)
| CallAuthenticator (token : string)
| CallAuthorizer (request : Request)
| CallUnauthorized
| CallHandler (request : Request).

(** One request served: the writer and the request as the gate leaves them,
    and the calls it made. *)
Record Served : Type := mkServed {
  writer_of : ResponseWriter;
  request_of : Request;
  calls : list Call
}.

(** The gate called [unauthorized]. *)
Definition rejected (s : Served) : Prop := In CallUnauthorized (calls s).

(** The gate called the wrapped handler. *)
Definition forwarded (s : Served) : Prop := exists r, In (CallHandler r) (calls s).

End Rest.

(** ** Revision [src/token.go] *)

Module TokenGo.
Import Go Strings Base64 Subtle Rest.

Record AuthTokenMiddleware : Type := mkAuthTokenMiddleware {
  Realm : string;
  Authenticator : option (string -> string);
  Authorizer : option (Request -> bool);
  TokenEntropy : Z
}.

Definition with_Authorizer (mw : AuthTokenMiddleware) (f : Request -> bool)
  : AuthTokenMiddleware :=
  {| Realm := Realm mw; Authenticator := Authenticator mw;
     Authorizer := Some f; TokenEntropy := TokenEntropy mw |}.

Definition with_TokenEntropy (mw : AuthTokenMiddleware) (n : Z)
  : AuthTokenMiddleware :=
  {| Realm := Realm mw; Authenticator := Authenticator mw;
     Authorizer := Authorizer mw; TokenEntropy := n |}.

Definition unauthorized (mw : AuthTokenMiddleware) (writer : ResponseWriter)
  : ResponseWriter :=
  Error (Header_Set writer "WWW-Authenticate" ("Token realm=" +:+ Realm mw))
        "Not Authorized" StatusUnauthorized.

Definition ErrInvalidAuthentication : error := "Invalid authentication".
Definition ErrInvalidBase64 : error := "Invalid base64".

(** Extract the token from the current request: the decoded bytes. *)
Definition decodeAuthHeader (mw : AuthTokenMiddleware) (header : string)
  : string * option error :=
  let parts := SplitN2 header " "%char in
  if negb ((length parts =? 2)%nat && String.eqb (nth 0 parts EmptyString) "Token")
  then (EmptyString, Some ErrInvalidAuthentication)
  else
    match DecodeString (nth 1 parts EmptyString) with
    | None => (EmptyString, Some ErrInvalidBase64)
    | Some token => (token, None)
    end.

(** [mw.unauthorized(writer); return]. *)
Definition reject (mw : AuthTokenMiddleware) (writer : ResponseWriter)
    (request : Request) (made : list Call) : outcome Served :=
  Returns {| writer_of := unauthorized mw writer;
             request_of := request;
             calls := made ++ [CallUnauthorized] |}.

(** The function [MiddlewareFunc] returns.  Calling a nil callback panics. *)
Definition gate (mw : AuthTokenMiddleware) (handler : HandlerFunc)
    (writer : ResponseWriter) (request : Request) : outcome Served :=
  let authHeader := Get (Header request) "Authorization" in
  if String.eqb authHeader EmptyString then reject mw writer request []
  else
    let made := [CallDecodeAuthHeader authHeader] in
    match decodeAuthHeader mw authHeader with
    | (_, Some _) => reject mw writer request made
    | (token, None) =>
        match Authenticator mw with
        | None => Panics
        | Some authenticator =>
            let made := made ++ [CallAuthenticator token] in
            let userID := authenticator token in
            if String.eqb userID EmptyString then reject mw writer request made
            else
              match Authorizer mw with
              | None => Panics
              | Some authorizer =>
                  let made := made ++ [CallAuthorizer request] in
                  if negb (authorizer request) then reject mw writer request made
                  else
                    let request' := set_Env request "REMOTE_USER" (AnyString userID) in
                    let (writer', request'') := handler writer request' in
                    Returns {| writer_of := writer';
                               request_of := request'';
                               calls := made ++ [CallHandler request'] |}
              end
        end
    end.

(** [MiddlewareFunc] either stops the process with [log.Fatal] or leaves
    the middleware with its defaults filled in and returns the gate. *)
Inductive Setup : Type :=
| Fatal (msg : string)
| Ready (mw : AuthTokenMiddleware)
        (serve : ResponseWriter -> Request -> outcome Served).

Definition MiddlewareFunc (mw : AuthTokenMiddleware) (handler : HandlerFunc) : Setup :=
  if String.eqb (Realm mw) EmptyString then Fatal "Realm is required"
  else
    match Authenticator mw with
    | None => Fatal "Authenticator is required"
    | Some _ =>
        let mw :=
          match Authorizer mw with
          | None => with_Authorizer mw (fun _ => true)
          | Some _ => mw
          end in
        let mw :=
          if TokenEntropy mw =? 0 then with_TokenEntropy mw 32 else mw in
        Ready mw (gate mw handler)
    end.

(** [New] generates a new random token. *)
Definition New (mw : AuthTokenMiddleware) (src : Rand.Source)
  : outcome (string * option error) :=
  match make_bytes (TokenEntropy mw) with
  | None => Panics
  | Some bytes =>
      match Rand.Read src bytes with
      | (_, Some err) => Returns (EmptyString, Some err)
      | (bytes, None) => Returns (EncodeToString bytes, None)
      end
  end.

(** [Equal] does constant-time XOR comparison of two tokens. *)
Definition Equal (mw : AuthTokenMiddleware) (a b : string) : bool :=
  ConstantTimeCompare a b =? 1.

End TokenGo.

(** ** Revision [src/unnamed/part_001] *)

Module Part001.
Import Go Strings Base64 Subtle Rest.

Definition tokenEntropy : Z := 32.

Record AuthTokenMiddleware : Type := mkAuthTokenMiddleware {
  Realm : string;
  Authenticator : option (string -> string);
  Authorizer : option (Request -> bool)
}.

Definition with_Authorizer (mw : AuthTokenMiddleware) (f : Request -> bool)
  : AuthTokenMiddleware :=
  {| Realm := Realm mw; Authenticator := Authenticator mw; Authorizer := Some f |}.

Definition unauthorized (mw : AuthTokenMiddleware) (writer : ResponseWriter)
  : ResponseWriter :=
  Error (Header_Set writer "WWW-Authenticate" ("Token realm=" +:+ Realm mw))
        "Not Authorized" StatusUnauthorized.

Definition ErrInvalidHeader : error := "Invalid Authorization header".
Definition ErrInvalidEncoding : error := "Token encoding not valid".

(** Extract the token from an Authorization header: the value is checked to
    be base64 and returned as it is. *)
Definition decodeAuthHeader (header : string) : string * option error :=
  let parts := SplitN2 header " "%char in
  if negb ((length parts =? 2)%nat && String.eqb (nth 0 parts EmptyString) "Token")
  then (EmptyString, Some ErrInvalidHeader)
  else
    match DecodeString (nth 1 parts EmptyString) with
    | None => (EmptyString, Some ErrInvalidEncoding)
    | Some _ => (nth 1 parts EmptyString, None)
    end.

Definition reject (mw : AuthTokenMiddleware) (writer : ResponseWriter)
    (request : Request) (made : list Call) : outcome Served :=
  Returns {| writer_of := unauthorized mw writer;
             request_of := request;
             calls := made ++ [CallUnauthorized] |}.

(** The part of the gate after the token is known. *)
Definition authenticate (mw : AuthTokenMiddleware) (handler : HandlerFunc)
    (writer : ResponseWriter) (request : Request) (token : string)
    (made : list Call) : outcome Served :=
  match Authenticator mw with
  | None => Panics
  | Some authenticator =>
      let made := made ++ [CallAuthenticator token] in
      let userID := authenticator token in
      if String.eqb userID EmptyString then reject mw writer request made
      else
        match Authorizer mw with
        | None => Panics
        | Some authorizer =>
            let made := made ++ [CallAuthorizer request] in
            if negb (authorizer request) then reject mw writer request made
            else
              let request' := set_Env request "REMOTE_USER" (AnyString userID) in
              let (writer', request'') := handler writer request' in
              Returns {| writer_of := writer';
                         request_of := request'';
                         calls := made ++ [CallHandler request'] |}
        end
  end.

(** The function [MiddlewareFunc] returns. *)
Definition gate (mw : AuthTokenMiddleware) (handler : HandlerFunc)
    (writer : ResponseWriter) (request : Request) : outcome Served :=
  if (0 <? String.length (Get (URL_Query request) "access_token"))%nat then
    let token := Get (URL_Query request) "access_token" in
    authenticate mw handler writer request token []
  else
    let authHeader := Get (Header request) "Authorization" in
    if String.eqb authHeader EmptyString then reject mw writer request []
    else
      let made := [CallDecodeAuthHeader authHeader] in
      match decodeAuthHeader authHeader with
      | (_, Some _) => reject mw writer request made
      | (token, None) => authenticate mw handler writer request token made
      end.

Inductive Setup : Type :=
| Fatal (msg : string)
| Ready (mw : AuthTokenMiddleware)
        (serve : ResponseWriter -> Request -> outcome Served).

Definition MiddlewareFunc (mw : AuthTokenMiddleware) (handler : HandlerFunc) : Setup :=
  if String.eqb (Realm mw) EmptyString then Fatal "Realm is required"
  else
    match Authenticator mw with
    | None => Fatal "Authenticator is required"
    | Some _ =>
        let mw :=
          match Authorizer mw with
          | None => with_Authorizer mw (fun _ => true)
          | Some _ => mw
          end in
        Ready mw (gate mw handler)
    end.

(** [New] generates a new random token. *)
Definition New (src : Rand.Source) : outcome (string * option error) :=
  match make_bytes tokenEntropy with
  | None => Panics
  | Some bytes =>
      match Rand.Read src bytes with
      | (_, Some err) => Returns (EmptyString, Some err)
      | (bytes, None) => Returns (EncodeToString bytes, None)
      end
  end.

(** [Equal] does constant-time XOR comparison of two tokens. *)
Definition Equal (a b : string) : bool :=
  ConstantTimeCompare a b =? 1.

(** [Hash] applies a simple MD5 hash over a token: the base64 text of
    [hashed[:]], the sixteen bytes [md5.Sum] returns. *)
Definition Hash (md5_Sum : string -> Md5.Sum16) (token : string) : string :=
  let hashed := md5_Sum token in
  EncodeToString (Md5.sum_bytes hashed).

(** [Token] extracts the current request's token. *)
Definition Token (request : Request) : string * option error :=
  let authHeader := Get (Header request) "Authorization" in
  decodeAuthHeader authHeader.

End Part001.

(** ** Vocabulary of the specification *)

Module Spec.
Import Go Strings Base64 Rest.

(** The failure causes the specification lists for a request. *)
Inductive Cause : Type :=
| NoCredential
| MalformedHeader
| InvalidEncoding
| EmptyIdentity
| AuthorizationDenied.

(** The request fails for this cause at the gate of [src/token.go]:
    - no credential: the Authorization header is empty or absent;
    - malformed header, invalid encoding: the header decoder returns the
      one or the other error;
    - empty identity: the Authenticator returns the empty string for the
      decoded token;
    - authorization denied: the Authenticator returns an identity and the
      Authorizer returns false. *)
Definition fails (mw : TokenGo.AuthTokenMiddleware) (request : Request)
    (cause : Cause) : Prop :=
  let header := Get (Header request) "Authorization" in
  match cause with
  | NoCredential => header = EmptyString
  | MalformedHeader =>
      header <> EmptyString /\
      snd (TokenGo.decodeAuthHeader mw header) = Some TokenGo.ErrInvalidAuthentication
  | InvalidEncoding =>
      header <> EmptyString /\
      snd (TokenGo.decodeAuthHeader mw header) = Some TokenGo.ErrInvalidBase64
  | EmptyIdentity =>
      header <> EmptyString /\
      exists token authenticator,
        TokenGo.decodeAuthHeader mw header = (token, None) /\
        TokenGo.Authenticator mw = Some authenticator /\
        authenticator token = EmptyString
  | AuthorizationDenied =>
      header <> EmptyString /\
      exists token authenticator authorizer,
        TokenGo.decodeAuthHeader mw header = (token, None) /\
        TokenGo.Authenticator mw = Some authenticator /\
        authenticator token <> EmptyString /\
        TokenGo.Authorizer mw = Some authorizer /\
        authorizer request = false
  end.

(** The challenge the specification writes, with the realm between double
    quotes (byte 34). *)
Definition quoted_challenge (realm : string) : string :=
  "Token realm=" +:+ String "034"%char (realm +:+ String "034"%char EmptyString).

(** The response a rejection produces: the challenge header set on the
    writer, status 401, and the generic message. *)
Definition rejection (realm : string) (writer : ResponseWriter) : ResponseWriter :=
  {| RespHeader := <["WWW-Authenticate" := ["Token realm=" +:+ realm]]> (RespHeader writer);
     Status := Some 401;
     ErrorBody := Some "Not Authorized" |}.

End Spec.

(** ** Sample configurations and requests *)

Module Sample.
Import Go Rest.

(** A token store with one token. *)
Definition lookup (token : string) : string :=
  if String.eqb token "abc" then "user-42" else EmptyString.

(** A store that also knows the empty token. *)
Definition lookup_any (token : string) : string := "guest".

Definition deny (request : Request) : bool := false.

Definition handler : HandlerFunc :=
  fun writer request =>
    ({| RespHeader := RespHeader writer; Status := Some 200; ErrorBody := None |},
     request).

Definition writer : ResponseWriter :=
  {| RespHeader := ∅; Status := None; ErrorBody := None |}.

Definition request_with (query header : list string) : Request :=
  {| URL_Query := {[ "access_token" := query ]};
     Header := {[ "Authorization" := header ]};
     Env := ∅ |}.

Definition token_go (authorizer : option (Request -> bool)) (entropy : Z)
  : TokenGo.AuthTokenMiddleware :=
  {| TokenGo.Realm := "api";
     TokenGo.Authenticator := Some lookup;
     TokenGo.Authorizer := authorizer;
     TokenGo.TokenEntropy := entropy |}.

Definition part_001 (authorizer : option (Request -> bool))
  : Part001.AuthTokenMiddleware :=
  {| Part001.Realm := "api";
     Part001.Authenticator := Some lookup;
     Part001.Authorizer := authorizer |}.

Definition counting (i : nat) : ascii := ascii_of_nat (i + 65).

End Sample.

(** * Properties *)

Import Go Strings Base64 Subtle Rest.

(** ** Bit arithmetic of bytes and sextets *)

Ltac zdm := Z.div_mod_to_equations; lia.

(** An "or" whose operands share no bit is a sum. *)
Lemma lor_add x b n :
  0 <= n -> 0 <= b < 2 ^ n -> x mod 2 ^ n = 0 -> Z.lor x b = x + b.
Proof.
  intros Hn Hb Hx.
  assert (Hland : Z.land x b = 0).
  { apply Z.bits_inj'. intros i Hi.
    rewrite Z.land_spec, Z.bits_0.
    destruct (Z.lt_ge_cases i n) as [Hlt | Hge].
    - rewrite <- (Z.mod_pow2_bits_low x n i) by lia.
      rewrite Hx, Z.bits_0. reflexivity.
    - assert (Hbi : Z.testbit b i = false).
      { apply Z.testbit_false; [lia |].
        rewrite Z.div_small; [reflexivity |].
        split; [lia |].
        apply Z.lt_le_trans with (2 ^ n); [lia |].
        apply Z.pow_le_mono_r; lia. }
      rewrite Hbi. apply andb_false_r. }
  rewrite <- Z.lxor_lor by exact Hland.
  symmetry. apply Z.add_nocarry_lxor. exact Hland.
Qed.

Lemma uint_range c : 0 <= uint c < 256.
Proof.
  unfold uint. pose proof (N_ascii_bounded c). lia.
Qed.

Lemma uint_inj a b : uint a = uint b -> a = b.
Proof.
  unfold uint. intros H. apply N2Z.inj in H.
  rewrite <- (ascii_N_embedding a), <- (ascii_N_embedding b), H. reflexivity.
Qed.

Lemma byte_uint v c : v mod 256 = uint c -> byte v = c.
Proof.
  intros H. unfold byte. rewrite H. unfold uint.
  rewrite N2Z.id. apply ascii_N_embedding.
Qed.

Lemma uint_0 : uint "000"%char = 0.
Proof. reflexivity. Qed.

Lemma decodeMap_encode v : 0 <= v < 64 -> decodeMap (encode v) = v.
Proof.
  intros Hv.
  assert (Hall : forallb (fun n => decodeMap (encode (Z.of_nat n)) =? Z.of_nat n)
                   (seq 0 64) = true) by (vm_compute; reflexivity).
  rewrite forallb_forall in Hall.
  specialize (Hall (Z.to_nat v)).
  rewrite Z2Nat.id in Hall by lia.
  apply Z.eqb_eq, Hall, in_seq. lia.
Qed.

Lemma land63 v : Z.land v 63 = v mod 64.
Proof. change 63 with (Z.ones 6). rewrite Z.land_ones by lia. reflexivity. Qed.

Lemma decodeMap_sextet val k : decodeMap (sextet val k) = Z.shiftr val k mod 64.
Proof.
  unfold sextet. rewrite land63. apply decodeMap_encode. zdm.
Qed.

Lemma sextet_symbol val k : decodeMap (sextet val k) <> 255.
Proof. rewrite decodeMap_sextet. zdm. Qed.

Lemma val3_add s0 s1 s2 : val3 s0 s1 s2 = uint s0 * 65536 + uint s1 * 256 + uint s2.
Proof.
  unfold val3.
  pose proof (uint_range s0). pose proof (uint_range s1). pose proof (uint_range s2).
  rewrite !Z.shiftl_mul_pow2 by lia.
  change (2 ^ 16) with 65536. change (2 ^ 8) with 256.
  rewrite (lor_add (uint s0 * 65536) _ 16);
    [| lia | lia | change (2 ^ 16) with 65536; zdm].
  rewrite (lor_add _ (uint s2) 8);
    [| lia | change (2 ^ 8) with 256; lia | change (2 ^ 8) with 256; zdm].
  reflexivity.
Qed.

Lemma val3_range s0 s1 s2 : 0 <= val3 s0 s1 s2 < 16777216.
Proof.
  rewrite val3_add.
  pose proof (uint_range s0). pose proof (uint_range s1). pose proof (uint_range s2).
  lia.
Qed.

Lemma val3_tail2 s0 s1 :
  Z.lor (Z.shiftl (uint s0) 16) (Z.shiftl (uint s1) 8) = val3 s0 s1 "000"%char.
Proof. unfold val3. rewrite uint_0, Z.lor_0_r. reflexivity. Qed.

Lemma val3_tail1 s0 :
  Z.shiftl (uint s0) 16 = val3 s0 "000"%char "000"%char.
Proof.
  unfold val3. rewrite uint_0, Z.lor_0_r. change (Z.shiftl 0 8) with 0.
  rewrite Z.lor_0_r. reflexivity.
Qed.

Lemma assemble_add d0 d1 d2 d3 :
  0 <= d0 < 64 -> 0 <= d1 < 64 -> 0 <= d2 < 64 -> 0 <= d3 < 64 ->
  assemble d0 d1 d2 d3 = d0 * 262144 + d1 * 4096 + d2 * 64 + d3.
Proof.
  intros H0 H1 H2 H3. unfold assemble.
  rewrite !Z.shiftl_mul_pow2 by lia.
  change (2 ^ 18) with 262144. change (2 ^ 12) with 4096. change (2 ^ 6) with 64.
  rewrite (lor_add (d0 * 262144) _ 18);
    [| lia | change (2 ^ 18) with 262144; lia | change (2 ^ 18) with 262144; zdm].
  rewrite (lor_add _ (d2 * 64) 12);
    [| lia | change (2 ^ 12) with 4096; lia | change (2 ^ 12) with 4096; zdm].
  rewrite (lor_add _ d3 6);
    [| lia | change (2 ^ 6) with 64; lia | change (2 ^ 6) with 64; zdm].
  reflexivity.
Qed.

(** The four sextets of a 24-bit group put together give the group back. *)
Lemma assemble_sextets val :
  0 <= val < 16777216 ->
  assemble (Z.shiftr val 18 mod 64) (Z.shiftr val 12 mod 64)
           (Z.shiftr val 6 mod 64) (Z.shiftr val 0 mod 64) = val.
Proof.
  intros Hval.
  rewrite assemble_add by zdm.
  rewrite !Z.shiftr_div_pow2 by lia.
  change (2 ^ 18) with 262144. change (2 ^ 12) with 4096.
  change (2 ^ 6) with 64. change (2 ^ 0) with 1.
  zdm.
Qed.

Lemma assemble_sextets_pad val d2 d3 :
  0 <= val < 16777216 ->
  d2 = Z.shiftr val 6 mod 64 -> d3 = Z.shiftr val 0 mod 64 ->
  assemble (Z.shiftr val 18 mod 64) (Z.shiftr val 12 mod 64) d2 d3 = val.
Proof. intros Hval -> ->. apply assemble_sextets, Hval. Qed.

Lemma quantum4 s0 s1 s2 :
  let val := val3 s0 s1 s2 in
  quantum [Z.shiftr val 18 mod 64; Z.shiftr val 12 mod 64;
           Z.shiftr val 6 mod 64; Z.shiftr val 0 mod 64]
  = String s0 (String s1 (String s2 EmptyString)).
Proof.
  intros val. unfold quantum. cbn [nth length Nat.sub take string_of_list_ascii].
  rewrite assemble_sextets by apply val3_range.
  subst val. rewrite val3_add.
  pose proof (uint_range s0). pose proof (uint_range s1). pose proof (uint_range s2).
  rewrite !Z.shiftr_div_pow2 by lia.
  change (2 ^ 16) with 65536. change (2 ^ 8) with 256. change (2 ^ 0) with 1.
  rewrite (byte_uint _ s0) by zdm.
  rewrite (byte_uint _ s1) by zdm.
  rewrite (byte_uint _ s2) by zdm.
  reflexivity.
Qed.

Lemma quantum3 s0 s1 :
  let val := val3 s0 s1 "000"%char in
  quantum [Z.shiftr val 18 mod 64; Z.shiftr val 12 mod 64; Z.shiftr val 6 mod 64]
  = String s0 (String s1 EmptyString).
Proof.
  intros val. unfold quantum. cbn [nth length Nat.sub take string_of_list_ascii].
  pose proof (uint_range s0). pose proof (uint_range s1).
  rewrite assemble_sextets_pad; [| apply val3_range | reflexivity |].
  2:{ subst val. rewrite val3_add, uint_0.
      rewrite Z.shiftr_div_pow2 by lia. change (2 ^ 0) with 1. zdm. }
  subst val. rewrite val3_add, uint_0.
  rewrite !Z.shiftr_div_pow2 by lia.
  change (2 ^ 16) with 65536. change (2 ^ 8) with 256.
  rewrite (byte_uint _ s0) by zdm.
  rewrite (byte_uint _ s1) by zdm.
  reflexivity.
Qed.

Lemma quantum2 s0 :
  let val := val3 s0 "000"%char "000"%char in
  quantum [Z.shiftr val 18 mod 64; Z.shiftr val 12 mod 64]
  = String s0 EmptyString.
Proof.
  intros val. unfold quantum. cbn [nth length Nat.sub take string_of_list_ascii].
  pose proof (uint_range s0).
  rewrite assemble_sextets_pad; [| apply val3_range | |].
  2,3: subst val; rewrite val3_add, uint_0;
       rewrite Z.shiftr_div_pow2 by lia;
       change (2 ^ 6) with 64; change (2 ^ 0) with 1; zdm.
  subst val. rewrite val3_add, uint_0.
  rewrite !Z.shiftr_div_pow2 by lia.
  change (2 ^ 16) with 65536.
  rewrite (byte_uint _ s0) by zdm.
  reflexivity.
Qed.

(** ** The base64 round trip *)

(** Induction on a string three bytes at a time, as [EncodeToString]
    consumes it. *)
Lemma string_ind_by3 (P : string -> Prop) :
  P EmptyString ->
  (forall a, P (String a EmptyString)) ->
  (forall a b, P (String a (String b EmptyString))) ->
  (forall a b c s, P s -> P (String a (String b (String c s)))) ->
  forall s, P s.
Proof.
  intros H0 H1 H2 H3 s.
  assert (H : P s /\ (forall a, P (String a s)) /\
              (forall a b, P (String a (String b s)))).
  { induction s as [| c s [IH0 [IH1 IH2]]].
    - auto.
    - repeat split; auto. }
  apply H.
Qed.

Lemma decode_symbol dbuf c rest :
  decodeMap c <> 255 ->
  decode dbuf (String c rest) =
    if (length (dbuf ++ [decodeMap c]) =? 4)%nat
    then option_map (String.append (quantum (dbuf ++ [decodeMap c]))) (decode [] rest)
    else decode (dbuf ++ [decodeMap c]) rest.
Proof.
  intros Hc. cbn [decode].
  destruct (decodeMap c =? 255) eqn:E; [apply Z.eqb_eq in E; contradiction |].
  reflexivity.
Qed.

Lemma decode_pad2 d0 d1 :
  decode [d0; d1] (String padChar (String padChar EmptyString))
  = Some (quantum [d0; d1]).
Proof. reflexivity. Qed.

Lemma decode_pad1 d0 d1 d2 :
  decode [d0; d1; d2] (String padChar EmptyString) = Some (quantum [d0; d1; d2]).
Proof. reflexivity. Qed.

Ltac decode_symbols :=
  repeat (rewrite decode_symbol by apply sextet_symbol;
          rewrite decodeMap_sextet; cbn [app length Nat.eqb]).

(** [DecodeString] undoes [EncodeToString] on every byte string. *)
Lemma DecodeString_EncodeToString src :
  DecodeString (EncodeToString src) = Some src.
Proof.
  unfold DecodeString.
  induction src as [| s0 | s0 s1 | s0 s1 s2 rest IH] using string_ind_by3.
  - reflexivity.
  - cbn [EncodeToString]. rewrite val3_tail1. decode_symbols.
    rewrite decode_pad2. f_equal. apply quantum2.
  - cbn [EncodeToString]. rewrite val3_tail2. decode_symbols.
    rewrite decode_pad1. f_equal. apply quantum3.
  - cbn [EncodeToString]. decode_symbols.
    rewrite IH. cbn [option_map]. f_equal.
    rewrite quantum4. reflexivity.
Qed.

(** ** Which texts the decoder accepts *)

Lemma newline_not_symbol c : is_newline c = true -> decodeMap c = 255.
Proof.
  unfold is_newline. intros H. apply orb_true_iff in H as [H | H];
    apply Ascii.eqb_eq in H; subst c; reflexivity.
Qed.

(** One step of the decoder on a byte that is not a line break. *)
Lemma decode_step dbuf c rest :
  is_newline c = false ->
  decode dbuf (String c rest) =
    if symbol c then
      if (length (dbuf ++ [decodeMap c]) =? 4)%nat
      then option_map (String.append (quantum (dbuf ++ [decodeMap c]))) (decode [] rest)
      else decode (dbuf ++ [decodeMap c]) rest
    else if Ascii.eqb c padChar then
      match dbuf with
      | [_; _] =>
          match skip_newlines rest with
          | EmptyString => None
          | String c' rest' =>
              if Ascii.eqb c' padChar
              then if is_empty (skip_newlines rest') then Some (quantum dbuf) else None
              else None
          end
      | [_; _; _] =>
          if is_empty (skip_newlines rest) then Some (quantum dbuf) else None
      | _ => None
      end
    else None.
Proof.
  intros Hnl. cbn [decode]. unfold symbol. rewrite Hnl.
  destruct (decodeMap c =? 255); cbn [negb]; [| reflexivity].
  destruct (Ascii.eqb c padChar); cbn [negb]; [| reflexivity].
  destruct dbuf as [| d0 [| d1 [| d2 [| d3 dbuf]]]]; try reflexivity.
  destruct (skip_newlines rest) as [| c' rest']; [reflexivity |].
  destruct (Ascii.eqb c' padChar); reflexivity.
Qed.

Lemma decode_newline dbuf c rest :
  is_newline c = true -> decode dbuf (String c rest) = decode dbuf rest.
Proof.
  intros Hnl. cbn [decode]. rewrite (newline_not_symbol c Hnl), Hnl. reflexivity.
Qed.

Lemma skip_newlines_strip s : skip_newlines (strip_newlines s) = strip_newlines s.
Proof.
  induction s as [| c s IH]; cbn [strip_newlines]; [reflexivity |].
  destruct (is_newline c) eqn:Hnl; [exact IH |].
  cbn [skip_newlines]. rewrite Hnl. reflexivity.
Qed.

Lemma strip_skip_newlines s : strip_newlines (skip_newlines s) = strip_newlines s.
Proof.
  induction s as [| c s IH]; cbn [skip_newlines strip_newlines]; [reflexivity |].
  destruct (is_newline c) eqn:Hnl; [exact IH |].
  cbn [strip_newlines]. rewrite Hnl. reflexivity.
Qed.

Lemma skip_newlines_head s c rest :
  skip_newlines s = String c rest -> is_newline c = false.
Proof.
  induction s as [| d s IH]; cbn [skip_newlines]; [discriminate |].
  destruct (is_newline d) eqn:Hnl; [exact IH |].
  intros [= <- <-]. exact Hnl.
Qed.

Lemma is_empty_skip_strip s :
  is_empty (skip_newlines s) = is_empty (strip_newlines s).
Proof.
  induction s as [| c s IH]; cbn [skip_newlines strip_newlines]; [reflexivity |].
  destruct (is_newline c); [exact IH | reflexivity].
Qed.

(** Line breaks do not matter to the decoder. *)
Lemma decode_strip_newlines s : forall dbuf,
  decode dbuf s = decode dbuf (strip_newlines s).
Proof.
  induction s as [| c s IH]; intros dbuf; [reflexivity |].
  cbn [strip_newlines]. destruct (is_newline c) eqn:Hnl.
  - rewrite decode_newline by exact Hnl. apply IH.
  - rewrite !decode_step by exact Hnl.
    destruct (symbol c).
    + rewrite (IH []), (IH (dbuf ++ [decodeMap c])). reflexivity.
    + destruct (Ascii.eqb c padChar); [| reflexivity].
      rewrite skip_newlines_strip, <- is_empty_skip_strip.
      destruct dbuf as [| d0 [| d1 [| d2 [| d3 dbuf]]]]; try reflexivity.
      rewrite <- (strip_skip_newlines s).
      destruct (skip_newlines s) as [| c' rest'] eqn:Hs; [reflexivity |].
      cbn [strip_newlines]. rewrite (skip_newlines_head _ _ _ Hs).
      rewrite skip_newlines_strip, <- is_empty_skip_strip. reflexivity.
Qed.

Lemma string_ind_by4 (P : string -> Prop) :
  P EmptyString ->
  (forall a, P (String a EmptyString)) ->
  (forall a b, P (String a (String b EmptyString))) ->
  (forall a b c, P (String a (String b (String c EmptyString)))) ->
  (forall a b c d s, P s -> P (String a (String b (String c (String d s))))) ->
  forall s, P s.
Proof.
  intros H0 H1 H2 H3 H4 s.
  assert (H : P s /\ (forall a, P (String a s)) /\
              (forall a b, P (String a (String b s))) /\
              (forall a b c, P (String a (String b (String c s))))).
  { induction s as [| d s (IH0 & IH1 & IH2 & IH3)].
    - auto.
    - repeat split; auto. }
  apply H.
Qed.

Lemma skip_newlines_clean s :
  Forall (fun c => is_newline c = false) (list_ascii_of_string s) ->
  skip_newlines s = s.
Proof.
  destruct s as [| c s]; [reflexivity |].
  cbn [list_ascii_of_string skip_newlines]. intros H.
  apply Forall_cons in H as [-> _]. reflexivity.
Qed.

Lemma strip_newlines_clean s :
  Forall (fun c => is_newline c = false) (list_ascii_of_string (strip_newlines s)).
Proof.
  induction s as [| c s IH]; cbn [strip_newlines]; [constructor |].
  destruct (is_newline c) eqn:Hnl; [exact IH |].
  cbn [list_ascii_of_string]. constructor; assumption.
Qed.

Ltac decode_one :=
  rewrite decode_step by assumption;
  cbn [app length Nat.eqb];
  let Hs := fresh "Hsym" in
  let Hp := fresh "Hpad" in
  match goal with
  | |- context [symbol ?c] =>
      destruct (symbol c) eqn:Hs; cbn [andb];
      [| destruct (Ascii.eqb c padChar) eqn:Hp; cbn [andb] ]
  end.

Ltac refused := split; [intros Hno; now destruct Hno | discriminate].
Ltac accepted := split; [reflexivity | discriminate].

(** On a text with no line break, the decoder accepts exactly the padded
    groups. *)
Lemma decode_padded_groups t :
  Forall (fun c => is_newline c = false) (list_ascii_of_string t) ->
  (decode [] t <> None <-> padded_groups t = true).
Proof.
  induction t as [| a | a b | a b c | a b c d t IH] using string_ind_by4;
    cbn [list_ascii_of_string]; intros Hclean;
    repeat match goal with
           | H : Forall _ (_ :: _) |- _ => apply Forall_cons in H as [? H]
           end;
    cbn [padded_groups].
  - accepted.
  - decode_one; refused.
  - decode_one; [decode_one |..]; refused.
  - decode_one; [decode_one; [decode_one |..] |..]; refused.
  - decode_one; [decode_one; [decode_one; [decode_one |..] |..] |..];
      try refused.
    + destruct (decode [] t) as [bytes |] eqn:Hd; cbn [option_map].
      * rewrite <- (IH Hclean). split; intros; discriminate.
      * rewrite <- (IH Hclean). split; intros Hno; now destruct Hno.
    + rewrite (skip_newlines_clean t Hclean).
      destruct (is_empty t); [accepted | refused].
    + cbn [skip_newlines].
      match goal with H : is_newline d = false |- _ => rewrite H end.
      rewrite (skip_newlines_clean t Hclean).
      destruct (Ascii.eqb d padChar); cbn [andb]; [| refused].
      destruct (is_empty t); [accepted | refused].
Qed.

(** The decoder accepts exactly the well-formed texts. *)
Lemma DecodeString_well_formed s :
  DecodeString s <> None <-> well_formed s = true.
Proof.
  unfold DecodeString, well_formed.
  rewrite decode_strip_newlines.
  apply decode_padded_groups, strip_newlines_clean.
Qed.


Example well_formed_examples :
  well_formed EmptyString = true /\
  well_formed "YWJj" = true /\
  well_formed "YWI=" = true /\
  well_formed "YQ==" = true /\
  well_formed (String "010" "YW" +:+ String "013" "I=") = true /\
  well_formed "YWJ" = false /\
  well_formed "YQ=" = false /\
  well_formed "YQ==YQ==" = false /\
  well_formed "a+b/" = false /\
  well_formed " YWJj" = false.
Proof. repeat split. Qed.

(** ** Constant-time comparison *)

Lemma lor_byte_range a b : 0 <= a < 256 -> 0 <= b < 256 -> 0 <= Z.lor a b < 256.
Proof.
  intros Ha Hb.
  assert (H : Z.lor a b = Z.lor a b mod 256).
  { change 256 with (2 ^ 8). rewrite <- Z.land_ones by lia.
    rewrite Z.land_lor_distr_l, !Z.land_ones by lia.
    change (2 ^ 8) with 256. rewrite !Z.mod_small by lia. reflexivity. }
  rewrite H. apply Z.mod_pos_bound. lia.
Qed.

Lemma lxor_byte_range a b : 0 <= a < 256 -> 0 <= b < 256 -> 0 <= Z.lxor a b < 256.
Proof.
  intros Ha Hb.
  pose proof (lor_byte_range a b Ha Hb) as Hor.
  pose proof (Z.sub_lor_land a b) as Hsub.
  assert (0 <= Z.land a b) by (apply Z.land_nonneg; lia).
  assert (0 <= Z.lxor a b) by (apply Z.lxor_nonneg; lia).
  lia.
Qed.

Lemma xor_fold_range x : forall y v, 0 <= v < 256 -> 0 <= xor_fold v x y < 256.
Proof.
  induction x as [| a x IH]; intros y v Hv; [exact Hv |].
  destruct y as [| b y]; [exact Hv |].
  cbn [xor_fold]. apply IH, lor_byte_range; [exact Hv |].
  apply lxor_byte_range; apply uint_range.
Qed.

(** The accumulated difference is zero exactly when nothing differed. *)
Lemma xor_fold_zero x : forall y v,
  String.length x = String.length y ->
  (xor_fold v x y = 0 <-> v = 0 /\ x = y).
Proof.
  induction x as [| a x IH]; intros y v Hlen; destruct y as [| b y];
    cbn [String.length] in Hlen; try discriminate.
  - cbn [xor_fold]. intuition.
  - cbn [xor_fold]. rewrite IH by congruence.
    rewrite Z.lor_eq_0_iff, Z.lxor_eq_0_iff. split.
    + intros [[Hv Hab] Hxy]. apply uint_inj in Hab. subst. auto.
    + intros [Hv Hxy]. injection Hxy as -> ->. auto.
Qed.

Lemma ConstantTimeByteEq_zero v :
  0 <= v < 256 -> (ConstantTimeByteEq v 0 = 1 <-> v = 0).
Proof.
  intros Hv. unfold ConstantTimeByteEq, uint32.
  rewrite Z.lxor_0_r, Z.shiftr_div_pow2 by lia.
  change (2 ^ 31) with 2147483648.
  split; intros H; zdm.
Qed.

Lemma ConstantTimeCompare_spec x y : ConstantTimeCompare x y = 1 <-> x = y.
Proof.
  unfold ConstantTimeCompare.
  destruct (String.length x =? String.length y)%nat eqn:Hlen; cbn [negb].
  - apply Nat.eqb_eq in Hlen.
    rewrite ConstantTimeByteEq_zero by (apply xor_fold_range; lia).
    rewrite xor_fold_zero by exact Hlen. intuition.
  - apply Nat.eqb_neq in Hlen. split; [discriminate |].
    intros ->. contradiction.
Qed.

(** ** Splitting a header at its first space *)

Lemma append_nil s : EmptyString +:+ s = s.
Proof. reflexivity. Qed.

Lemma append_cons c a s : String c a +:+ s = String c (a +:+ s).
Proof. reflexivity. Qed.

Lemma SplitN2_no_sep s sep : has_byte s sep = false -> SplitN2 s sep = [s].
Proof.
  induction s as [| c s IH]; cbn [has_byte SplitN2]; [reflexivity |].
  intros H. apply orb_false_iff in H as [Hc Hs].
  rewrite Hc, (IH Hs). reflexivity.
Qed.

Lemma SplitN2_at_sep a sep b :
  has_byte a sep = false -> SplitN2 (a +:+ String sep b) sep = [a; b].
Proof.
  induction a as [| c a IH]; cbn [has_byte].
  - intros _. rewrite append_nil. cbn [SplitN2].
    rewrite Ascii.eqb_refl. reflexivity.
  - intros H. apply orb_false_iff in H as [Hc Ha].
    rewrite append_cons. cbn [SplitN2].
    rewrite Hc, (IH Ha). reflexivity.
Qed.

(** [SplitN2] gives one part when there is no separator, and otherwise the
    two parts around the first one. *)
Lemma SplitN2_cases s sep :
  (has_byte s sep = false /\ SplitN2 s sep = [s]) \/
  (exists a b, s = a +:+ String sep b /\ has_byte a sep = false /\
               SplitN2 s sep = [a; b]).
Proof.
  induction s as [| c s IH]; cbn [has_byte SplitN2].
  - left. auto.
  - destruct (Ascii.eqb c sep) eqn:Hc.
    + right. apply Ascii.eqb_eq in Hc. subst c.
      exists EmptyString, s. auto.
    + destruct IH as [[Hs ->] | (a & b & -> & Ha & ->)].
      * left. auto.
      * right. exists (String c a), b. cbn [has_byte].
        rewrite Hc, Ha, append_cons. auto.
Qed.

(** The split gives two parts with the literal [Token] first exactly for the
    headers that start with [Token] and a space. *)
Lemma SplitN2_Token header value :
  SplitN2 header " "%char = ["Token"; value] <-> header = "Token " +:+ value.
Proof.
  split.
  - intros H. destruct (SplitN2_cases header " "%char)
      as [[_ H1] | (a & b & Hs & _ & H2)].
    + rewrite H1 in H. discriminate.
    + rewrite H2 in H. injection H as -> ->. exact Hs.
  - intros ->. apply (SplitN2_at_sep "Token" " "%char value). reflexivity.
Qed.

(** The test [len(parts) == 2 && parts[0] == "Token"] of both decoders. *)
Lemma scheme_test header :
  let parts := SplitN2 header " "%char in
  ((length parts =? 2)%nat && String.eqb (nth 0 parts EmptyString) "Token" = true
    /\ exists value, parts = ["Token"; value] /\ nth 1 parts EmptyString = value)
  \/
  ((length parts =? 2)%nat && String.eqb (nth 0 parts EmptyString) "Token" = false
    /\ forall value, parts <> ["Token"; value]).
Proof.
  intros parts. subst parts.
  destruct (SplitN2_cases header " "%char)
    as [[_ ->] | (a & b & _ & _ & ->)].
  - right. split; [reflexivity | discriminate].
  - cbn [length Nat.eqb nth andb].
    destruct (String.eqb_spec a "Token") as [-> | Hne].
    + left. split; [reflexivity |]. exists b. auto.
    + right. split; [reflexivity |]. intros value H. injection H as H _. auto.
Qed.

(** What [decodeAuthHeader] of [src/token.go] returns, case by case. *)
Lemma TokenGo_decodeAuthHeader_cases mw header :
  ((forall value, SplitN2 header " "%char <> ["Token"; value]) /\
   TokenGo.decodeAuthHeader mw header
     = (EmptyString, Some TokenGo.ErrInvalidAuthentication))
  \/
  (exists value, SplitN2 header " "%char = ["Token"; value] /\
     DecodeString value = None /\
     TokenGo.decodeAuthHeader mw header
       = (EmptyString, Some TokenGo.ErrInvalidBase64))
  \/
  (exists value token, SplitN2 header " "%char = ["Token"; value] /\
     DecodeString value = Some token /\
     TokenGo.decodeAuthHeader mw header = (token, None)).
Proof.
  unfold TokenGo.decodeAuthHeader.
  destruct (scheme_test header) as [[-> (value & Hp & ->)] | [-> Hno]];
    cbn [negb].
  - right. destruct (DecodeString value) as [token |] eqn:Hd.
    + right. exists value, token. auto.
    + left. exists value. auto.
  - left. auto.
Qed.

(** What [decodeAuthHeader] of [src/unnamed/part_001] returns, case by case. *)
Lemma Part001_decodeAuthHeader_cases header :
  ((forall value, SplitN2 header " "%char <> ["Token"; value]) /\
   Part001.decodeAuthHeader header
     = (EmptyString, Some Part001.ErrInvalidHeader))
  \/
  (exists value, SplitN2 header " "%char = ["Token"; value] /\
     DecodeString value = None /\
     Part001.decodeAuthHeader header
       = (EmptyString, Some Part001.ErrInvalidEncoding))
  \/
  (exists value token, SplitN2 header " "%char = ["Token"; value] /\
     DecodeString value = Some token /\
     Part001.decodeAuthHeader header = (value, None)).
Proof.
  unfold Part001.decodeAuthHeader.
  destruct (scheme_test header) as [[-> (value & Hp & ->)] | [-> Hno]];
    cbn [negb].
  - right. destruct (DecodeString value) as [token |] eqn:Hd.
    + right. exists value, token. auto.
    + left. exists value. auto.
  - left. auto.
Qed.

(** ** The header decoder *)

(** C2, as amended.  For every byte string [b], both decoders accept the
    header [Token] followed by a space and the URL-safe base64 encoding of
    [b].  The decoder of [src/token.go] returns the decoded bytes, that is
    [b] itself.  The decoder of [src/unnamed/part_001] checks the encoding
    and returns the value as it came over the wire, that is the encoding of
    [b], from which base64 decoding gives [b] back. *)
Theorem C2_decode_encoded_header (mw : TokenGo.AuthTokenMiddleware) (b : string) :
  TokenGo.decodeAuthHeader mw ("Token " +:+ EncodeToString b) = (b, None) /\
  Part001.decodeAuthHeader ("Token " +:+ EncodeToString b)
    = (EncodeToString b, None) /\
  DecodeString (EncodeToString b) = Some b.
Proof.
  assert (Hsplit : SplitN2 ("Token " +:+ EncodeToString b) " "%char
                   = ["Token"; EncodeToString b])
    by (apply SplitN2_Token; reflexivity).
  repeat split.
  - unfold TokenGo.decodeAuthHeader. rewrite Hsplit.
    cbn [length Nat.eqb nth andb negb].
    change (String.eqb "Token" "Token") with true. cbn [negb].
    rewrite DecodeString_EncodeToString. reflexivity.
  - unfold Part001.decodeAuthHeader. rewrite Hsplit.
    cbn [length Nat.eqb nth andb negb].
    change (String.eqb "Token" "Token") with true. cbn [negb].
    rewrite DecodeString_EncodeToString. reflexivity.
  - apply DecodeString_EncodeToString.
Qed.

(** C2 as stated fails on [src/unnamed/part_001]: for the bytes [abc] the
    decoder returns the wire value [YWJj], not [abc]. *)
Lemma C2_wire_value_counterexample :
  Part001.decodeAuthHeader ("Token " +:+ EncodeToString "abc") = ("YWJj", None) /\
  fst (Part001.decodeAuthHeader ("Token " +:+ EncodeToString "abc")) <> "abc".
Proof.
  split; [reflexivity |]. vm_compute. discriminate.
Qed.


(** Headers the claim names as malformed: a wrong scheme, a scheme in the
    wrong case, a missing value, no separator; a tab is not a separator. *)
Example decoder_malformed_examples (mw : TokenGo.AuthTokenMiddleware) :
  Forall (fun header =>
            snd (TokenGo.decodeAuthHeader mw header)
              = Some TokenGo.ErrInvalidAuthentication /\
            snd (Part001.decodeAuthHeader header) = Some Part001.ErrInvalidHeader)
         ["Bearer YWJj"; "token YWJj"; "Token"; "TokenYWJj"; EmptyString;
          " Token YWJj"; String "T" (String "o" (String "k" (String "e"
            (String "n" (String "009" "YWJj")))))].
Proof. repeat constructor. Qed.

(** A value that is not base64 gives the other error. *)
Example decoder_invalid_encoding_examples (mw : TokenGo.AuthTokenMiddleware) :
  Forall (fun header =>
            snd (TokenGo.decodeAuthHeader mw header) = Some TokenGo.ErrInvalidBase64 /\
            snd (Part001.decodeAuthHeader header) = Some Part001.ErrInvalidEncoding)
         ["Token YWJ"; "Token YW=j"; "Token a+b/"; "Token  YWJj"; "Token YWJj YWJj"].
Proof. repeat constructor. Qed.

(** ** Comparison of tokens *)

(** C5.  [Equal] returns true exactly when its two arguments are the same
    byte string, whatever their lengths, the empty string included. *)
Theorem C5_Equal_iff_identical (mw : TokenGo.AuthTokenMiddleware) (a b : string) :
  (TokenGo.Equal mw a b = true <-> a = b) /\
  (Part001.Equal a b = true <-> a = b).
Proof.
  unfold TokenGo.Equal, Part001.Equal.
  rewrite Z.eqb_eq, ConstantTimeCompare_spec. tauto.
Qed.

Example Equal_examples (mw : TokenGo.AuthTokenMiddleware) :
  TokenGo.Equal mw EmptyString EmptyString = true /\
  TokenGo.Equal mw "abc" "abc" = true /\
  TokenGo.Equal mw "abc" "abd" = false /\
  TokenGo.Equal mw "abc" "ab" = false /\
  Part001.Equal EmptyString "a" = false /\
  Part001.Equal "secret" "secret" = true.
Proof. repeat split. Qed.

(** ** Token generation *)

Lemma length_string_of_list_ascii l :
  String.length (string_of_list_ascii l) = length l.
Proof.
  induction l as [| c l IH]; cbn [string_of_list_ascii String.length length];
    congruence.
Qed.

Lemma make_bytes_nonneg n :
  0 <= n ->
  exists bytes, make_bytes n = Some bytes /\ String.length bytes = Z.to_nat n.
Proof.
  intros Hn. unfold make_bytes.
  destruct (n <? 0) eqn:E; [apply Z.ltb_lt in E; lia |].
  eexists. split; [reflexivity |].
  rewrite length_string_of_list_ascii. apply length_replicate.
Qed.

Lemma make_bytes_negative n : n < 0 -> make_bytes n = None.
Proof.
  intros Hn. unfold make_bytes.
  destruct (n <? 0) eqn:E; [reflexivity | apply Z.ltb_ge in E; lia].
Qed.

Lemma Read_Entropy f b :
  exists bytes, Rand.Read (Rand.Entropy f) b = (bytes, None) /\
                String.length bytes = String.length b.
Proof.
  eexists. split; [reflexivity |].
  rewrite length_string_of_list_ascii, length_map, length_seq. reflexivity.
Qed.

(** The length of the encoding: four symbols for every three bytes, the
    last group padded. *)
Lemma length_EncodeToString src :
  Z.of_nat (String.length (EncodeToString src))
  = 4 * ((Z.of_nat (String.length src) + 2) / 3).
Proof.
  induction src as [| s0 | s0 s1 | s0 s1 s2 rest IH] using string_ind_by3;
    cbn [EncodeToString String.length]; try reflexivity.
  rewrite !Nat2Z.inj_succ, IH. zdm.
Qed.



(** What a call of [New] of [src/token.go] does, for an entropy that is
    not negative. *)
Lemma TokenGo_New_cases mw src :
  0 <= TokenGo.TokenEntropy mw ->
  match src with
  | Rand.Entropy _ =>
      exists bytes,
        TokenGo.New mw src = Returns (EncodeToString bytes, None) /\
        Z.of_nat (String.length bytes) = TokenGo.TokenEntropy mw
  | Rand.Exhausted err => TokenGo.New mw src = Returns (EmptyString, Some err)
  end.
Proof.
  intros Hn. unfold TokenGo.New.
  destruct (make_bytes_nonneg _ Hn) as (zeros & -> & Hlen).
  destruct src as [f | err]; [| reflexivity].
  destruct (Read_Entropy f zeros) as (bytes & -> & Hb).
  exists bytes. split; [reflexivity | lia].
Qed.

(** [New] of [src/unnamed/part_001] is [New] of [src/token.go] at the
    package's entropy. *)
Lemma Part001_New_TokenGo mw src :
  TokenGo.TokenEntropy mw = Part001.tokenEntropy ->
  Part001.New src = TokenGo.New mw src.
Proof. intros H. unfold Part001.New, TokenGo.New. rewrite H. reflexivity. Qed.

(** ** Setup *)

(** What [MiddlewareFunc] of [src/token.go] does, case by case. *)
Lemma TokenGo_MiddlewareFunc_cases mw handler :
  (TokenGo.Realm mw = EmptyString /\
   TokenGo.MiddlewareFunc mw handler = TokenGo.Fatal "Realm is required")
  \/
  (TokenGo.Realm mw <> EmptyString /\ TokenGo.Authenticator mw = None /\
   TokenGo.MiddlewareFunc mw handler = TokenGo.Fatal "Authenticator is required")
  \/
  (TokenGo.Realm mw <> EmptyString /\
   exists authenticator,
     TokenGo.Authenticator mw = Some authenticator /\
     let mw' :=
       {| TokenGo.Realm := TokenGo.Realm mw;
          TokenGo.Authenticator := Some authenticator;
          TokenGo.Authorizer :=
            Some (match TokenGo.Authorizer mw with
                  | Some authorizer => authorizer
                  | None => fun _ => true
                  end);
          TokenGo.TokenEntropy :=
            if TokenGo.TokenEntropy mw =? 0 then 32 else TokenGo.TokenEntropy mw |} in
     TokenGo.MiddlewareFunc mw handler = TokenGo.Ready mw' (TokenGo.gate mw' handler)).
Proof.
  unfold TokenGo.MiddlewareFunc.
  destruct mw as [realm [authenticator |] authorizer entropy]; cbn.
  - destruct (String.eqb_spec realm EmptyString) as [-> | Hrealm]; [left; auto |].
    right. right. split; [exact Hrealm |]. exists authenticator.
    split; [reflexivity |].
    destruct authorizer as [authorizer |]; cbn; destruct (entropy =? 0); reflexivity.
  - destruct (String.eqb_spec realm EmptyString) as [-> | Hrealm]; [left; auto |].
    right. left. auto.
Qed.

(** What [MiddlewareFunc] of [src/unnamed/part_001] does, case by case. *)
Lemma Part001_MiddlewareFunc_cases mw handler :
  (Part001.Realm mw = EmptyString /\
   Part001.MiddlewareFunc mw handler = Part001.Fatal "Realm is required")
  \/
  (Part001.Realm mw <> EmptyString /\ Part001.Authenticator mw = None /\
   Part001.MiddlewareFunc mw handler = Part001.Fatal "Authenticator is required")
  \/
  (Part001.Realm mw <> EmptyString /\
   exists authenticator,
     Part001.Authenticator mw = Some authenticator /\
     let mw' :=
       {| Part001.Realm := Part001.Realm mw;
          Part001.Authenticator := Some authenticator;
          Part001.Authorizer :=
            Some (match Part001.Authorizer mw with
                  | Some authorizer => authorizer
                  | None => fun _ => true
                  end) |} in
     Part001.MiddlewareFunc mw handler = Part001.Ready mw' (Part001.gate mw' handler)).
Proof.
  unfold Part001.MiddlewareFunc.
  destruct mw as [realm [authenticator |] authorizer]; cbn.
  - destruct (String.eqb_spec realm EmptyString) as [-> | Hrealm]; [left; auto |].
    right. right. split; [exact Hrealm |]. exists authenticator.
    split; [reflexivity |].
    destruct authorizer as [authorizer |]; reflexivity.
  - destruct (String.eqb_spec realm EmptyString) as [-> | Hrealm]; [left; auto |].
    right. left. auto.
Qed.

(** With both callbacks set, the gate of [src/token.go] returns. *)
Lemma TokenGo_gate_returns mw handler writer request :
  TokenGo.Authenticator mw <> None -> TokenGo.Authorizer mw <> None ->
  exists served, TokenGo.gate mw handler writer request = Returns served.
Proof.
  intros Ha Hz. unfold TokenGo.gate, TokenGo.reject.
  destruct (TokenGo.Authenticator mw) as [authenticator |]; [| contradiction].
  destruct (TokenGo.Authorizer mw) as [authorizer |]; [| contradiction].
  destruct (String.eqb _ EmptyString); [eauto |].
  destruct (TokenGo.decodeAuthHeader mw _) as [token [err |]]; [eauto |].
  destruct (String.eqb (authenticator token) EmptyString); [eauto |].
  destruct (authorizer request); cbn [negb]; [| eauto].
  destruct (handler writer _). eauto.
Qed.

(** With both callbacks set, the gate of [src/unnamed/part_001] returns. *)
Lemma Part001_gate_returns mw handler writer request :
  Part001.Authenticator mw <> None -> Part001.Authorizer mw <> None ->
  exists served, Part001.gate mw handler writer request = Returns served.
Proof.
  intros Ha Hz.
  assert (Hauth : forall token made, exists served,
            Part001.authenticate mw handler writer request token made
            = Returns served).
  { intros token made. unfold Part001.authenticate, Part001.reject.
    destruct (Part001.Authenticator mw) as [authenticator |]; [| contradiction].
    destruct (Part001.Authorizer mw) as [authorizer |]; [| contradiction].
    destruct (String.eqb (authenticator token) EmptyString); [eauto |].
    destruct (authorizer request); cbn [negb]; [| eauto].
    destruct (handler writer _). eauto. }
  unfold Part001.gate, Part001.reject.
  destruct (0 <? String.length _)%nat; [apply Hauth |].
  destruct (String.eqb _ EmptyString); [eauto |].
  destruct (Part001.decodeAuthHeader _) as [token [err |]]; [eauto | apply Hauth].
Qed.

(** C8.  [MiddlewareFunc] stops with a fatal error exactly when the realm
    is empty or the Authenticator is nil, and it does so at setup: when it
    returns a gate, the realm and the Authenticator are set and unchanged,
    a nil Authorizer has become the callback that always returns true, an
    entropy of zero has become 32, and the gate then serves every request
    without faulting on its configuration. *)
Theorem C8_setup_validation
    (mw : TokenGo.AuthTokenMiddleware) (mw1 : Part001.AuthTokenMiddleware)
    (handler : HandlerFunc) :
  ((TokenGo.Realm mw = EmptyString ->
      TokenGo.MiddlewareFunc mw handler = TokenGo.Fatal "Realm is required") /\
   (TokenGo.Realm mw <> EmptyString -> TokenGo.Authenticator mw = None ->
      TokenGo.MiddlewareFunc mw handler = TokenGo.Fatal "Authenticator is required") /\
   (forall msg, TokenGo.MiddlewareFunc mw handler = TokenGo.Fatal msg ->
      TokenGo.Realm mw = EmptyString \/ TokenGo.Authenticator mw = None) /\
   (forall mw' serve, TokenGo.MiddlewareFunc mw handler = TokenGo.Ready mw' serve ->
      TokenGo.Realm mw <> EmptyString /\
      TokenGo.Realm mw' = TokenGo.Realm mw /\
      TokenGo.Authenticator mw <> None /\
      TokenGo.Authenticator mw' = TokenGo.Authenticator mw /\
      (TokenGo.Authorizer mw = None ->
         TokenGo.Authorizer mw' = Some (fun _ => true)) /\
      (TokenGo.Authorizer mw <> None ->
         TokenGo.Authorizer mw' = TokenGo.Authorizer mw) /\
      (TokenGo.TokenEntropy mw = 0 -> TokenGo.TokenEntropy mw' = 32) /\
      serve = TokenGo.gate mw' handler /\
      forall writer request, exists served, serve writer request = Returns served))
  /\
  ((Part001.Realm mw1 = EmptyString ->
      Part001.MiddlewareFunc mw1 handler = Part001.Fatal "Realm is required") /\
   (Part001.Realm mw1 <> EmptyString -> Part001.Authenticator mw1 = None ->
      Part001.MiddlewareFunc mw1 handler = Part001.Fatal "Authenticator is required") /\
   (forall msg, Part001.MiddlewareFunc mw1 handler = Part001.Fatal msg ->
      Part001.Realm mw1 = EmptyString \/ Part001.Authenticator mw1 = None) /\
   (forall mw' serve, Part001.MiddlewareFunc mw1 handler = Part001.Ready mw' serve ->
      Part001.Realm mw1 <> EmptyString /\
      Part001.Realm mw' = Part001.Realm mw1 /\
      Part001.Authenticator mw1 <> None /\
      Part001.Authenticator mw' = Part001.Authenticator mw1 /\
      (Part001.Authorizer mw1 = None ->
         Part001.Authorizer mw' = Some (fun _ => true)) /\
      (Part001.Authorizer mw1 <> None ->
         Part001.Authorizer mw' = Part001.Authorizer mw1) /\
      serve = Part001.gate mw' handler /\
      forall writer request, exists served, serve writer request = Returns served)).
Proof.
  split.
  - destruct (TokenGo_MiddlewareFunc_cases mw handler)
      as [[Hr ->] | [(Hr & Ha & ->) | (Hr & authenticator & Ha & Hready)]].
    + repeat split; try tauto; intros; discriminate.
    + repeat split; try tauto; try congruence; intros; discriminate.
    + cbv zeta in Hready. rewrite Hready.
      split; [congruence |]. split; [congruence |]. split; [discriminate |].
      intros mw' serve Hrs. injection Hrs as <- <-. cbn.
      repeat split; try congruence.
      * intros ->. reflexivity.
      * destruct (TokenGo.Authorizer mw); congruence.
      * intros ->. reflexivity.
      * intros writer request. apply TokenGo_gate_returns; cbn; discriminate.
  - destruct (Part001_MiddlewareFunc_cases mw1 handler)
      as [[Hr ->] | [(Hr & Ha & ->) | (Hr & authenticator & Ha & Hready)]].
    + repeat split; try tauto; intros; discriminate.
    + repeat split; try tauto; try congruence; intros; discriminate.
    + cbv zeta in Hready. rewrite Hready.
      split; [congruence |]. split; [congruence |]. split; [discriminate |].
      intros mw' serve Hrs. injection Hrs as <- <-. cbn.
      repeat split; try congruence.
      * intros ->. reflexivity.
      * destruct (Part001.Authorizer mw1); congruence.
      * intros writer request. apply Part001_gate_returns; cbn; discriminate.
Qed.

(** Setup at sample configurations: an empty realm, a nil Authenticator,
    and a configuration with the Authorizer and the entropy left unset. *)
Example setup_examples :
  TokenGo.MiddlewareFunc
    {| TokenGo.Realm := EmptyString;
       TokenGo.Authenticator := Some Sample.lookup;
       TokenGo.Authorizer := None;
       TokenGo.TokenEntropy := 0 |} Sample.handler
  = TokenGo.Fatal "Realm is required" /\
  TokenGo.MiddlewareFunc
    {| TokenGo.Realm := "api";
       TokenGo.Authenticator := None;
       TokenGo.Authorizer := None;
       TokenGo.TokenEntropy := 0 |} Sample.handler
  = TokenGo.Fatal "Authenticator is required" /\
  TokenGo.MiddlewareFunc (Sample.token_go None 0) Sample.handler
  = TokenGo.Ready (Sample.token_go (Some (fun _ => true)) 32)
      (TokenGo.gate (Sample.token_go (Some (fun _ => true)) 32) Sample.handler) /\
  Part001.MiddlewareFunc (Sample.part_001 None) Sample.handler
  = Part001.Ready (Sample.part_001 (Some (fun _ => true)))
      (Part001.gate (Sample.part_001 (Some (fun _ => true))) Sample.handler).
Proof. repeat split. Qed.


(** A negative entropy at a sample configuration: setup keeps it, the
    generator panics. *)
Example negative_entropy_example :
  exists serve,
    TokenGo.MiddlewareFunc (Sample.token_go None (-1)) Sample.handler
      = TokenGo.Ready (Sample.token_go (Some (fun _ => true)) (-1)) serve /\
    TokenGo.New (Sample.token_go (Some (fun _ => true)) (-1))
                (Rand.Entropy Sample.counting) = Panics.
Proof. eexists. split; reflexivity. Qed.



(** ** The gate of [src/token.go] *)

Lemma unauthorized_rejection mw writer :
  TokenGo.unauthorized mw writer = Spec.rejection (TokenGo.Realm mw) writer.
Proof. reflexivity. Qed.

Lemma Get_rejection realm writer :
  Get (RespHeader (Spec.rejection realm writer)) "WWW-Authenticate"
  = "Token realm=" +:+ realm.
Proof.
  unfold Get, Spec.rejection. cbn [RespHeader].
  rewrite lookup_insert_eq. reflexivity.
Qed.

Lemma eqb_empty_false s : s <> EmptyString -> String.eqb s EmptyString = false.
Proof. intros H. destruct (String.eqb_spec s EmptyString); [contradiction | reflexivity]. Qed.

(** C1, as amended.  Whatever the cause of the failure (no credential, a
    malformed header, an invalid encoding, the Authenticator returning the
    empty identity, the Authorizer returning false), the gate gives the same
    response: status 401, the message [Not Authorized], and the header
    [WWW-Authenticate] set to [Token realm=] followed by the configured
    realm as it is, with no quotes added; the request is left as it came.
    Conversely every rejection has one of these causes, so nothing in the
    response tells the cause. *)
Theorem C1_uniform_rejection (mw : TokenGo.AuthTokenMiddleware)
    (handler : HandlerFunc) (writer : ResponseWriter) (request : Request) :
  (forall cause, Spec.fails mw request cause ->
     exists made,
       TokenGo.gate mw handler writer request
       = Returns {| writer_of := Spec.rejection (TokenGo.Realm mw) writer;
                    request_of := request;
                    calls := made |} /\
       In CallUnauthorized made) /\
  (forall served, TokenGo.gate mw handler writer request = Returns served ->
     rejected served ->
     writer_of served = Spec.rejection (TokenGo.Realm mw) writer /\
     exists cause, Spec.fails mw request cause) /\
  Get (RespHeader (Spec.rejection (TokenGo.Realm mw) writer)) "WWW-Authenticate"
  = "Token realm=" +:+ TokenGo.Realm mw /\
  Status (Spec.rejection (TokenGo.Realm mw) writer) = Some 401 /\
  ErrorBody (Spec.rejection (TokenGo.Realm mw) writer) = Some "Not Authorized".
Proof.
  split; [| split; [| split; [apply Get_rejection | split; reflexivity]]].
  - intros cause Hfails. unfold TokenGo.gate, TokenGo.reject.
    rewrite unauthorized_rejection.
    destruct cause; cbn in Hfails.
    + rewrite Hfails. cbn. eexists. split; [reflexivity | cbn; tauto].
    + destruct Hfails as [Hh Herr]. rewrite (eqb_empty_false _ Hh).
      destruct (TokenGo.decodeAuthHeader mw _) as [token [err |]];
        [| discriminate Herr].
      eexists. split; [reflexivity | cbn; tauto].
    + destruct Hfails as [Hh Herr]. rewrite (eqb_empty_false _ Hh).
      destruct (TokenGo.decodeAuthHeader mw _) as [token [err |]];
        [| discriminate Herr].
      eexists. split; [reflexivity | cbn; tauto].
    + destruct Hfails as (Hh & token & authenticator & -> & -> & Hid).
      rewrite (eqb_empty_false _ Hh), Hid. cbn.
      eexists. split; [reflexivity | cbn; tauto].
    + destruct Hfails
        as (Hh & token & authenticator & authorizer & -> & -> & Hid & -> & Hz).
      rewrite (eqb_empty_false _ Hh), (eqb_empty_false _ Hid), Hz. cbn.
      eexists. split; [reflexivity | cbn; tauto].
  - intros served. unfold TokenGo.gate, TokenGo.reject, rejected.
    rewrite unauthorized_rejection.
    destruct (String.eqb_spec (Get (Header request) "Authorization") EmptyString)
      as [Hh | Hh].
    { intros [= <-] _. split; [reflexivity |]. exists Spec.NoCredential. exact Hh. }
    destruct (TokenGo_decodeAuthHeader_cases mw (Get (Header request) "Authorization"))
      as [[_ Hd] | [(value & _ & _ & Hd) | (value & token & _ & _ & Hd)]];
      rewrite Hd.
    { intros [= <-] _. split; [reflexivity |]. exists Spec.MalformedHeader.
      cbn. rewrite Hd. auto. }
    { intros [= <-] _. split; [reflexivity |]. exists Spec.InvalidEncoding.
      cbn. rewrite Hd. auto. }
    destruct (TokenGo.Authenticator mw) as [authenticator |] eqn:Ha;
      [| discriminate].
    destruct (String.eqb_spec (authenticator token) EmptyString) as [Hid | Hid].
    { intros [= <-] _. split; [reflexivity |]. exists Spec.EmptyIdentity.
      cbn. split; [exact Hh |]. exists token, authenticator. auto. }
    destruct (TokenGo.Authorizer mw) as [authorizer |] eqn:Hz; [| discriminate].
    destruct (authorizer request) eqn:Hgrant; cbn [negb].
    + destruct (handler writer _) as [writer' request']. intros [= <-]. cbn.
      intros [H | [H | [H | [H | []]]]]; discriminate H.
    + intros [= <-] _. split; [reflexivity |]. exists Spec.AuthorizationDenied.
      cbn. split; [exact Hh |]. exists token, authenticator, authorizer. auto.
Qed.

(** C1 as stated fails on the form of the challenge: for the realm [api]
    the header is [Token realm=api], without the double quotes the claim
    puts around the realm. *)
Lemma C1_quoted_realm_counterexample :
  exists served,
    TokenGo.gate (Sample.token_go (Some (fun _ => true)) 32) Sample.handler
                 Sample.writer (Sample.request_with [] []) = Returns served /\
    rejected served /\
    Get (RespHeader (writer_of served)) "WWW-Authenticate" = "Token realm=api" /\
    Get (RespHeader (writer_of served)) "WWW-Authenticate"
      <> Spec.quoted_challenge "api".
Proof.
  eexists. split; [reflexivity |]. split; [left; reflexivity |].
  split; [reflexivity |]. vm_compute. discriminate.
Qed.

(** C1 at a sample request: a well-formed header with a token the store
    does not know. *)
Lemma C1_uniform_rejection_witness :
  exists made,
    TokenGo.gate (Sample.token_go (Some (fun _ => true)) 32) Sample.handler
                 Sample.writer (Sample.request_with [] ["Token YWJk"])
    = Returns {| writer_of := Spec.rejection "api" Sample.writer;
                 request_of := Sample.request_with [] ["Token YWJk"];
                 calls := made |} /\
    In CallUnauthorized made.
Proof.
  apply (proj1 (C1_uniform_rejection (Sample.token_go (Some (fun _ => true)) 32)
                  Sample.handler Sample.writer
                  (Sample.request_with [] ["Token YWJk"]))
               Spec.EmptyIdentity).
  split; [discriminate |].
  exists "abd", Sample.lookup. repeat split; reflexivity.
Defined.

(** What the gate of [src/token.go] has done when it returns, path by
    path. *)
Lemma TokenGo_gate_inv mw handler writer request served :
  TokenGo.gate mw handler writer request = Returns served ->
  let header := Get (Header request) "Authorization" in
  let refused made :=
    {| writer_of := TokenGo.unauthorized mw writer;
       request_of := request;
       calls := made ++ [CallUnauthorized] |} in
  (header = EmptyString /\ served = refused [])
  \/
  (header <> EmptyString /\
   (exists err, snd (TokenGo.decodeAuthHeader mw header) = Some err) /\
   served = refused [CallDecodeAuthHeader header])
  \/
  (header <> EmptyString /\
   exists token authenticator,
     TokenGo.decodeAuthHeader mw header = (token, None) /\
     TokenGo.Authenticator mw = Some authenticator /\
     ((authenticator token = EmptyString /\
       served = refused [CallDecodeAuthHeader header; CallAuthenticator token])
      \/
      (authenticator token <> EmptyString /\
       exists authorizer,
         TokenGo.Authorizer mw = Some authorizer /\
         ((authorizer request = false /\
           served = refused [CallDecodeAuthHeader header; CallAuthenticator token;
                             CallAuthorizer request])
          \/
          (authorizer request = true /\
           let request' :=
             set_Env request "REMOTE_USER" (AnyString (authenticator token)) in
           served =
             {| writer_of := fst (handler writer request');
                request_of := snd (handler writer request');
                calls := [CallDecodeAuthHeader header; CallAuthenticator token;
                          CallAuthorizer request; CallHandler request'] |}))))).
Proof.
  unfold TokenGo.gate, TokenGo.reject. cbv zeta.
  destruct (String.eqb_spec (Get (Header request) "Authorization") EmptyString)
    as [Hh | Hh].
  { intros [= <-]. left. auto. }
  destruct (TokenGo.decodeAuthHeader mw _) as [token [err |]] eqn:Hd.
  { intros [= <-]. right. left. cbn [snd]. eauto. }
  destruct (TokenGo.Authenticator mw) as [authenticator |]; [| discriminate].
  right. right. split; [exact Hh |]. exists token, authenticator.
  split; [reflexivity |]. split; [reflexivity |].
  destruct (String.eqb_spec (authenticator token) EmptyString) as [Hid | Hid].
  { injection H as <-. left. auto. }
  destruct (TokenGo.Authorizer mw) as [authorizer |]; [| discriminate].
  right. split; [exact Hid |]. exists authorizer. split; [reflexivity |].
  destruct (authorizer request); cbn [negb] in H.
  - destruct (handler writer _) as [writer' request'] eqn:Hhandler.
    injection H as <-. right. split; [reflexivity |]. reflexivity.
  - injection H as <-. left. auto.
Qed.

(** ** The gate of [src/unnamed/part_001] *)

(** What the gate has done after the token is known, when it returns. *)
Lemma Part001_authenticate_inv mw handler writer request token made served :
  Part001.authenticate mw handler writer request token made = Returns served ->
  let refused made' :=
    {| writer_of := Part001.unauthorized mw writer;
       request_of := request;
       calls := made ++ made' ++ [CallUnauthorized] |} in
  exists authenticator,
    Part001.Authenticator mw = Some authenticator /\
    ((authenticator token = EmptyString /\
      served = refused [CallAuthenticator token])
     \/
     (authenticator token <> EmptyString /\
      exists authorizer,
        Part001.Authorizer mw = Some authorizer /\
        ((authorizer request = false /\
          served = refused [CallAuthenticator token; CallAuthorizer request])
         \/
         (authorizer request = true /\
          let request' :=
            set_Env request "REMOTE_USER" (AnyString (authenticator token)) in
          served =
            {| writer_of := fst (handler writer request');
               request_of := snd (handler writer request');
               calls := made ++ [CallAuthenticator token; CallAuthorizer request;
                                 CallHandler request'] |})))).
Proof.
  unfold Part001.authenticate, Part001.reject. cbv zeta. intros Hserved.
  destruct (Part001.Authenticator mw) as [authenticator |]; [| discriminate].
  exists authenticator. split; [reflexivity |].
  destruct (String.eqb_spec (authenticator token) EmptyString) as [Hid | Hid].
  { injection Hserved as <-. left. split; [exact Hid |].
    rewrite <- app_assoc. reflexivity. }
  destruct (Part001.Authorizer mw) as [authorizer |]; [| discriminate].
  right. split; [exact Hid |]. exists authorizer. split; [reflexivity |].
  destruct (authorizer request); cbn [negb] in Hserved.
  - destruct (handler writer _) as [writer' request'] eqn:Hhandler.
    injection Hserved as <-. right. split; [reflexivity |].
    rewrite <- !app_assoc. reflexivity.
  - injection Hserved as <-. left. split; [reflexivity |].
    rewrite <- !app_assoc. reflexivity.
Qed.

(** Where the gate takes the token from, when it gets as far as the
    Authenticator: the query parameter when it is not empty, and otherwise
    the decoded Authorization header. *)
Lemma Part001_gate_inv mw handler writer request served :
  Part001.gate mw handler writer request = Returns served ->
  let query := Get (URL_Query request) "access_token" in
  let header := Get (Header request) "Authorization" in
  let refused made :=
    {| writer_of := Part001.unauthorized mw writer;
       request_of := request;
       calls := made ++ [CallUnauthorized] |} in
  (query <> EmptyString /\
   Part001.authenticate mw handler writer request query [] = Returns served)
  \/
  (query = EmptyString /\ header = EmptyString /\ served = refused [])
  \/
  (query = EmptyString /\ header <> EmptyString /\
   (exists err, snd (Part001.decodeAuthHeader header) = Some err) /\
   served = refused [CallDecodeAuthHeader header])
  \/
  (query = EmptyString /\ header <> EmptyString /\
   exists token,
     Part001.decodeAuthHeader header = (token, None) /\
     Part001.authenticate mw handler writer request token
       [CallDecodeAuthHeader header] = Returns served).
Proof.
  unfold Part001.gate, Part001.reject. cbv zeta.
  destruct (Get (URL_Query request) "access_token") as [| c query] eqn:Hq;
    cbn [String.length Nat.ltb Nat.leb].
  2:{ intros Hserved. left. split; [discriminate | exact Hserved]. }
  destruct (String.eqb_spec (Get (Header request) "Authorization") EmptyString)
    as [Hh | Hh].
  { intros [= <-]. right. left. auto. }
  destruct (Part001.decodeAuthHeader _) as [token [err |]] eqn:Hd.
  { intros [= <-]. right. right. left. cbn [snd]. eauto. }
  intros Hserved. right. right. right. eauto.
Qed.

(** ** Rejection leaves nothing behind *)

Ltac in_calls H :=
  cbn in H;
  repeat match type of H with
         | _ \/ _ => destruct H as [H | H]
         | False => destruct H
         | _ = _ => discriminate H
         end.

Ltac not_forwarded :=
  let r := fresh "r" in
  let Hin := fresh "Hin" in
  intros [r Hin]; in_calls Hin.

Ltac is_rejected := unfold rejected; cbn; tauto.

(** C7.  When the gate calls [unauthorized], for whatever cause, the
    request is left exactly as it came, so nothing is written under
    [REMOTE_USER], and the wrapped handler is not called.  The handler is
    called only after the Authenticator has returned an identity and the
    Authorizer has returned true, on the request with that identity under
    [REMOTE_USER], and then [unauthorized] is not called.  Every request
    the gate serves goes one of the two ways. *)
Theorem C7_rejection_leaves_no_state
    (mw : TokenGo.AuthTokenMiddleware) (mw1 : Part001.AuthTokenMiddleware)
    (handler : HandlerFunc) (writer : ResponseWriter) (request : Request) :
  (forall served, TokenGo.gate mw handler writer request = Returns served ->
     (rejected served \/ forwarded served) /\
     (rejected served ->
        request_of served = request /\
        Env (request_of served) !! "REMOTE_USER" = Env request !! "REMOTE_USER" /\
        ~ forwarded served) /\
     (forwarded served ->
        ~ rejected served /\
        exists token authenticator authorizer,
          TokenGo.decodeAuthHeader mw (Get (Header request) "Authorization")
            = (token, None) /\
          TokenGo.Authenticator mw = Some authenticator /\
          authenticator token <> EmptyString /\
          TokenGo.Authorizer mw = Some authorizer /\
          authorizer request = true /\
          let request' :=
            set_Env request "REMOTE_USER" (AnyString (authenticator token)) in
          (writer_of served, request_of served) = handler writer request' /\
          exists made, calls served = made ++ [CallHandler request']))
  /\
  (forall served, Part001.gate mw1 handler writer request = Returns served ->
     (rejected served \/ forwarded served) /\
     (rejected served ->
        request_of served = request /\
        Env (request_of served) !! "REMOTE_USER" = Env request !! "REMOTE_USER" /\
        ~ forwarded served) /\
     (forwarded served ->
        ~ rejected served /\
        exists token authenticator authorizer,
          (token = Get (URL_Query request) "access_token" \/
           Part001.decodeAuthHeader (Get (Header request) "Authorization")
             = (token, None)) /\
          Part001.Authenticator mw1 = Some authenticator /\
          authenticator token <> EmptyString /\
          Part001.Authorizer mw1 = Some authorizer /\
          authorizer request = true /\
          let request' :=
            set_Env request "REMOTE_USER" (AnyString (authenticator token)) in
          (writer_of served, request_of served) = handler writer request' /\
          exists made, calls served = made ++ [CallHandler request'])).
Proof.
  split.
  - intros served Hserved.
    destruct (TokenGo_gate_inv _ _ _ _ _ Hserved)
      as [[_ ->] | [(_ & _ & ->) | (_ & token & authenticator & Hd & Ha &
           [[_ ->] | (Hid & authorizer & Hz & [[_ ->] | [Hgrant ->]])])]];
      cbv zeta; cbn [calls request_of writer_of].
    1-4: split; [left; is_rejected |];
         split; [intros _; repeat split; not_forwarded | not_forwarded].
    split; [right; eexists; cbn; eauto 6 |]. split.
    + intros Hrej. unfold rejected in Hrej. in_calls Hrej.
    + intros _. split; [intros Hrej; unfold rejected in Hrej; in_calls Hrej |].
      exists token, authenticator, authorizer.
      repeat (split; [assumption |]). split.
      * destruct (handler writer _); reflexivity.
      * eexists [_; _; _]. reflexivity.
  - intros served Hserved.
    assert (Hstage : forall token made,
      (token = Get (URL_Query request) "access_token" \/
       Part001.decodeAuthHeader (Get (Header request) "Authorization")
         = (token, None)) ->
      Part001.authenticate mw1 handler writer request token made = Returns served ->
      (forall r, ~ In (CallHandler r) made) -> ~ In CallUnauthorized made ->
      (rejected served \/ forwarded served) /\
      (rejected served ->
         request_of served = request /\
         Env (request_of served) !! "REMOTE_USER" = Env request !! "REMOTE_USER" /\
         ~ forwarded served) /\
      (forwarded served ->
         ~ rejected served /\
         exists token authenticator authorizer,
           (token = Get (URL_Query request) "access_token" \/
            Part001.decodeAuthHeader (Get (Header request) "Authorization")
              = (token, None)) /\
           Part001.Authenticator mw1 = Some authenticator /\
           authenticator token <> EmptyString /\
           Part001.Authorizer mw1 = Some authorizer /\
           authorizer request = true /\
           let request' :=
             set_Env request "REMOTE_USER" (AnyString (authenticator token)) in
           (writer_of served, request_of served) = handler writer request' /\
           exists made, calls served = made ++ [CallHandler request'])).
    { intros token made Htoken Hauth Hnh Hnu.
      destruct (Part001_authenticate_inv _ _ _ _ _ _ _ Hauth)
        as (authenticator & Ha &
            [[_ ->] | (Hid & authorizer & Hz & [[_ ->] | [Hgrant ->]])]);
        cbv zeta; unfold rejected, forwarded; cbn [calls request_of writer_of].
      - split; [left; apply in_or_app; right; cbn; tauto |].
        match goal with
        | |- (_ -> _ /\ _ /\ ~ ?F) /\ _ =>
            assert (Hnf : ~ F)
              by (intros [r Hin]; apply in_app_or in Hin as [Hin | Hin];
                  [exact (Hnh r Hin) | in_calls Hin])
        end.
        split; [intros _; repeat split; exact Hnf | intros Hf; destruct (Hnf Hf)].
      - split; [left; apply in_or_app; right; cbn; tauto |].
        match goal with
        | |- (_ -> _ /\ _ /\ ~ ?F) /\ _ =>
            assert (Hnf : ~ F)
              by (intros [r Hin]; apply in_app_or in Hin as [Hin | Hin];
                  [exact (Hnh r Hin) | in_calls Hin])
        end.
        split; [intros _; repeat split; exact Hnf | intros Hf; destruct (Hnf Hf)].
      - split; [right; eexists; apply in_or_app; right; cbn; eauto 6 |]. split.
        + intros Hrej. apply in_app_or in Hrej as [Hrej | Hrej];
            [contradiction | in_calls Hrej].
        + intros _. split.
          { intros Hrej. apply in_app_or in Hrej as [Hrej | Hrej];
              [contradiction | in_calls Hrej]. }
          exists token, authenticator, authorizer.
          repeat (split; [assumption |]). split.
          * destruct (handler writer _); reflexivity.
          * exists (made ++ [CallAuthenticator token; CallAuthorizer request]).
            rewrite <- app_assoc. reflexivity. }
    destruct (Part001_gate_inv _ _ _ _ _ Hserved)
      as [[_ Hauth] | [(_ & _ & ->) | [(_ & _ & _ & ->) | (_ & _ & token & Hd & Hauth)]]].
    + apply (Hstage _ [] (or_introl eq_refl) Hauth); intros; cbn; tauto.
    + cbv zeta; cbn [calls request_of writer_of].
      split; [left; is_rejected |].
      split; [intros _; repeat split; not_forwarded | not_forwarded].
    + cbv zeta; cbn [calls request_of writer_of].
      split; [left; is_rejected |].
      split; [intros _; repeat split; not_forwarded | not_forwarded].
    + apply (Hstage _ _ (or_intror Hd) Hauth).
      * intros r Hin. in_calls Hin.
      * intros Hin. in_calls Hin.
Qed.

(** C7 at a sample request: a known token, an Authorizer that says no. *)
Lemma C7_rejection_leaves_no_state_witness :
  let request := Sample.request_with [] ["Token YWJj"] in
  let served :=
    {| writer_of := Spec.rejection "api" Sample.writer;
       request_of := request;
       calls := [CallDecodeAuthHeader "Token YWJj"; CallAuthenticator "abc";
                 CallAuthorizer request; CallUnauthorized] |} in
  TokenGo.gate (Sample.token_go (Some Sample.deny) 32) Sample.handler
               Sample.writer request = Returns served /\
  rejected served /\
  request_of served = request /\
  Env (request_of served) !! "REMOTE_USER" = Env request !! "REMOTE_USER" /\
  ~ forwarded served.
Proof.
  intros request served.
  assert (Hgate : TokenGo.gate (Sample.token_go (Some Sample.deny) 32)
                    Sample.handler Sample.writer request = Returns served)
    by reflexivity.
  assert (Hrej : rejected served) by (right; right; right; left; reflexivity).
  split; [exact Hgate |]. split; [exact Hrej |].
  exact (proj1 (proj2 (proj1 (C7_rejection_leaves_no_state
                                (Sample.token_go (Some Sample.deny) 32)
                                (Sample.part_001 None)
                                Sample.handler Sample.writer request)
                             served Hgate)) Hrej).
Defined.

(** ** Where the credential comes from *)

Ltac settle_calls :=
  intros; cbn [app] in *;
  repeat match goal with
         | |- ~ _ => intro
         | H : In _ (_ :: _) |- _ => destruct H as [H | H]
         | H : In _ [] |- _ => destruct H
         | H : CallAuthenticator _ = CallAuthenticator _ |- _ =>
             injection H as H; try subst
         | H : CallDecodeAuthHeader _ = CallDecodeAuthHeader _ |- _ =>
             injection H as H; try subst
         | H : ?x = ?y |- _ => discriminate H
         end;
  try contradiction; try congruence; auto.

(** C4.  In the gate of [src/unnamed/part_001] a query parameter
    [access_token] that is not empty is the token: the Authenticator gets
    it as it is and the header decoder is not called, whatever the
    Authorization header holds.  The decoder is called only when the query
    parameter is empty and the header is not, and then first of all, on
    that header.  When both are empty the gate rejects the request at once,
    without a call to the Authenticator. *)
Theorem C4_credential_extraction (mw : Part001.AuthTokenMiddleware)
    (handler : HandlerFunc) (writer : ResponseWriter) (request : Request)
    (served : Served) :
  Part001.gate mw handler writer request = Returns served ->
  let query := Get (URL_Query request) "access_token" in
  let header := Get (Header request) "Authorization" in
  (query <> EmptyString ->
     head (calls served) = Some (CallAuthenticator query) /\
     (forall token, In (CallAuthenticator token) (calls served) -> token = query) /\
     (forall h, ~ In (CallDecodeAuthHeader h) (calls served))) /\
  (forall h, In (CallDecodeAuthHeader h) (calls served) ->
     query = EmptyString /\ header <> EmptyString /\ h = header) /\
  (query = EmptyString -> header <> EmptyString ->
     head (calls served) = Some (CallDecodeAuthHeader header) /\
     (forall token, In (CallAuthenticator token) (calls served) ->
        Part001.decodeAuthHeader header = (token, None))) /\
  (query = EmptyString -> header = EmptyString ->
     served = {| writer_of := Part001.unauthorized mw writer;
                 request_of := request;
                 calls := [CallUnauthorized] |} /\
     (forall token, ~ In (CallAuthenticator token) (calls served))).
Proof.
  intros Hserved. cbv zeta.
  assert (Hstage : forall token made,
    Part001.authenticate mw handler writer request token made = Returns served ->
    exists rest,
      calls served = made ++ CallAuthenticator token :: rest /\
      (forall t, ~ In (CallAuthenticator t) rest) /\
      (forall h, ~ In (CallDecodeAuthHeader h) rest)).
  { intros token made Hauth.
    destruct (Part001_authenticate_inv _ _ _ _ _ _ _ Hauth)
      as (authenticator & _ & [[_ ->] | (_ & authorizer & _ & [[_ ->] | [_ ->]])]);
      cbv zeta; cbn [calls]; eexists; (split; [reflexivity |]);
      split; intros t Hin; in_calls Hin. }
  destruct (Part001_gate_inv _ _ _ _ _ Hserved)
    as [[Hq Hauth] | [(Hq & Hh & ->) | [(Hq & Hh & _ & ->) |
         (Hq & Hh & token & Hd & Hauth)]]];
    cbv zeta; cbn [calls].
  - destruct (Hstage _ _ Hauth) as (rest & -> & Hna & Hnd). cbn [app head].
    repeat split; settle_calls;
      solve [exfalso; eapply Hna; eassumption | exfalso; eapply Hnd; eassumption].
  - repeat split; settle_calls.
  - repeat split; settle_calls.
  - destruct (Hstage _ _ Hauth) as (rest & -> & Hna & Hnd). cbn [app head].
    repeat split; settle_calls;
      solve [exfalso; eapply Hna; eassumption | exfalso; eapply Hnd; eassumption].
Qed.

(** C4 at a sample request: a query token, and a header that the decoder
    would refuse. *)
Lemma C4_credential_extraction_witness :
  let request := Sample.request_with ["abc"] ["Bearer !!!"] in
  let request' := set_Env request "REMOTE_USER" (AnyString "user-42") in
  let served :=
    {| writer_of := fst (Sample.handler Sample.writer request');
       request_of := request';
       calls := [CallAuthenticator "abc"; CallAuthorizer request;
                 CallHandler request'] |} in
  Part001.gate (Sample.part_001 (Some (fun _ => true))) Sample.handler
               Sample.writer request = Returns served /\
  head (calls served) = Some (CallAuthenticator "abc") /\
  (forall token, In (CallAuthenticator token) (calls served) -> token = "abc") /\
  (forall h, ~ In (CallDecodeAuthHeader h) (calls served)).
Proof.
  intros request request' served.
  assert (Hgate : Part001.gate (Sample.part_001 (Some (fun _ => true)))
                    Sample.handler Sample.writer request = Returns served)
    by reflexivity.
  split; [exact Hgate |].
  apply (proj1 (C4_credential_extraction _ _ _ _ _ Hgate)).
  discriminate.
Defined.

(** A query token is not decoded: one that is not base64 reaches the
    Authenticator as it is. *)
Example query_token_is_not_decoded :
  exists served,
    Part001.gate (Sample.part_001 (Some (fun _ => true))) Sample.handler
                 Sample.writer (Sample.request_with ["not base64!"] [])
    = Returns served /\
    calls served = [CallAuthenticator "not base64!"; CallUnauthorized].
Proof. eexists. split; reflexivity. Qed.

(** ** The empty token *)

(** C9.  The header [Token] followed by one space splits into the scheme
    and an empty value, the empty value is valid base64, and the decoder
    returns the empty token with no error.  The gate then calls the
    Authenticator with the empty string.  It rejects the request at that
    point exactly when the Authenticator returns the empty identity;
    otherwise the request counts as authenticated and goes on to the
    Authorizer, and when the Authorizer grants it (as the default one
    does) the request is rejected exactly when the Authenticator returned
    the empty identity. *)
Theorem C9_empty_token (mw : TokenGo.AuthTokenMiddleware) (handler : HandlerFunc)
    (writer : ResponseWriter) (request : Request) (served : Served) :
  (SplitN2 "Token " " "%char = ["Token"; EmptyString] /\
   DecodeString EmptyString = Some EmptyString /\
   TokenGo.decodeAuthHeader mw "Token " = (EmptyString, None)) /\
  (Get (Header request) "Authorization" = "Token " ->
   TokenGo.gate mw handler writer request = Returns served ->
   exists authenticator rest,
     TokenGo.Authenticator mw = Some authenticator /\
     calls served
       = CallDecodeAuthHeader "Token " :: CallAuthenticator EmptyString :: rest /\
     (authenticator EmptyString = EmptyString <-> rest = [CallUnauthorized]) /\
     (authenticator EmptyString = EmptyString <->
        rejected served /\ forall r, ~ In (CallAuthorizer r) (calls served)) /\
     (authenticator EmptyString <> EmptyString ->
        head rest = Some (CallAuthorizer request)) /\
     (forall authorizer, TokenGo.Authorizer mw = Some authorizer ->
        authorizer request = true ->
        (rejected served <-> authenticator EmptyString = EmptyString))).
Proof.
  split; [repeat split |].
  intros Hheader Hserved.
  destruct (TokenGo_gate_inv _ _ _ _ _ Hserved)
    as [[Hh _] | [(_ & [err Herr] & _) | (_ & token & authenticator & Hd & Ha & Hrest)]];
    rewrite Hheader in *.
  - discriminate Hh.
  - discriminate Herr.
  - injection Hd as <-. exists authenticator.
    destruct Hrest as [[Hid ->] | (Hid & authorizer & Hz & [[Hdeny ->] | [Hgrant ->]])];
      cbv zeta; unfold rejected; cbn [calls app];
      eexists; (split; [exact Ha |]); (split; [reflexivity |]).
    + repeat split; settle_calls; cbn; tauto.
    + repeat split; settle_calls.
      all: try match goal with H : _ /\ _ |- _ => destruct H as [_ H] end.
      all: try match goal with
               | H : forall r, ~ In (CallAuthorizer r) _ |- _ =>
                   exfalso; apply (H request); cbn; tauto
               end.
    + repeat split; settle_calls.
      all: try match goal with H : _ /\ _ |- _ => destruct H as [H _] end.
      all: settle_calls.
Qed.

(** C9 at a sample request: the store does not know the empty token. *)
Lemma C9_empty_token_witness :
  let request := Sample.request_with [] ["Token "] in
  let served :=
    {| writer_of := Spec.rejection "api" Sample.writer;
       request_of := request;
       calls := [CallDecodeAuthHeader "Token "; CallAuthenticator EmptyString;
                 CallUnauthorized] |} in
  TokenGo.gate (Sample.token_go (Some (fun _ => true)) 32) Sample.handler
               Sample.writer request = Returns served /\
  exists authenticator rest,
    Some Sample.lookup = Some authenticator /\
    calls served
      = CallDecodeAuthHeader "Token " :: CallAuthenticator EmptyString :: rest /\
    (authenticator EmptyString = EmptyString <-> rest = [CallUnauthorized]) /\
    (authenticator EmptyString = EmptyString <->
       rejected served /\ forall r, ~ In (CallAuthorizer r) (calls served)) /\
    (authenticator EmptyString <> EmptyString ->
       head rest = Some (CallAuthorizer request)) /\
    (forall authorizer, Some (fun _ : Request => true) = Some authorizer ->
       authorizer request = true ->
       (rejected served <-> authenticator EmptyString = EmptyString)).
Proof.
  intros request served.
  assert (Hgate : TokenGo.gate (Sample.token_go (Some (fun _ => true)) 32)
                    Sample.handler Sample.writer request = Returns served)
    by reflexivity.
  split; [exact Hgate |].
  exact (proj2 (C9_empty_token (Sample.token_go (Some (fun _ => true)) 32)
                  Sample.handler Sample.writer request served)
               eq_refl Hgate).
Defined.

(** A store that knows the empty token lets the request through. *)
Example empty_token_accepted :
  exists served,
    TokenGo.gate
      {| TokenGo.Realm := "api";
         TokenGo.Authenticator := Some Sample.lookup_any;
         TokenGo.Authorizer := Some (fun _ => true);
         TokenGo.TokenEntropy := 32 |}
      Sample.handler Sample.writer (Sample.request_with [] ["Token "])
    = Returns served /\
    forwarded served /\
    Env (request_of served) !! "REMOTE_USER" = Some (AnyString "guest").
Proof.
  eexists. split; [reflexivity |]. split.
  - eexists. cbn. eauto 6.
  - reflexivity.
Qed.

(** * Further properties of the package *)

(** ** [Hash] *)

(** The base64 text determines the bytes. *)
Lemma EncodeToString_inj a b : EncodeToString a = EncodeToString b -> a = b.
Proof.
  intros H. apply (f_equal DecodeString) in H.
  rewrite !DecodeString_EncodeToString in H. congruence.
Qed.

Lemma length_16_inv s :
  String.length s = 16%nat ->
  exists c0 c1 c2 c3 c4 c5 c6 c7 c8 c9 c10 c11 c12 c13 c14 c15,
    s = String c0 (String c1 (String c2 (String c3 (String c4 (String c5
        (String c6 (String c7 (String c8 (String c9 (String c10 (String c11
        (String c12 (String c13 (String c14 (String c15 EmptyString))))))))))))))).
Proof.
  intros H.
  do 16 (destruct s as [| ? s]; [discriminate H |]; cbn [String.length] in H;
         apply Nat.succ_inj in H).
  destruct s; [| discriminate H].
  repeat eexists.
Qed.

Lemma symbol_sextet val k : symbol (sextet val k) = true.
Proof.
  unfold symbol. pose proof (sextet_symbol val k) as H.
  apply Z.eqb_neq in H. rewrite H. reflexivity.
Qed.

(** X1.  Whatever the digest function, [Hash] returns 24 bytes: 22 symbols
    of the URL-safe alphabet followed by two padding bytes, and base64
    decoding of the result gives the sixteen bytes of the digest back. *)
Theorem X1_Hash_shape (md5_Sum : string -> Md5.Sum16) (token : string) :
  String.length (Part001.Hash md5_Sum token) = 24%nat /\
  DecodeString (Part001.Hash md5_Sum token)
    = Some (Md5.sum_bytes (md5_Sum token)) /\
  exists body,
    Part001.Hash md5_Sum token = body +:+ "==" /\
    String.length body = 22%nat /\
    Forall (fun c => symbol c = true) (list_ascii_of_string body).
Proof.
  unfold Part001.Hash. cbv zeta.
  split; [| split; [apply DecodeString_EncodeToString |]].
  - apply Nat2Z.inj. rewrite length_EncodeToString.
    rewrite (Md5.sum_size (md5_Sum token)). reflexivity.
  - destruct (length_16_inv _ (Md5.sum_size (md5_Sum token)))
      as (c0 & c1 & c2 & c3 & c4 & c5 & c6 & c7 & c8 & c9 & c10 & c11 &
          c12 & c13 & c14 & c15 & ->).
    cbn [EncodeToString].
    eexists (String _ (String _ (String _ (String _ (String _ (String _
            (String _ (String _ (String _ (String _ (String _ (String _
            (String _ (String _ (String _ (String _ (String _ (String _
            (String _ (String _ (String _ (String _ EmptyString)))))))))))))))))))))).
    split; [reflexivity |]. split; [reflexivity |].
    cbn [list_ascii_of_string].
    repeat (constructor; [apply symbol_sextet |]). constructor.
Qed.

(** X2.  Two tokens have the same [Hash] exactly when they have the same
    digest: the base64 step adds no collision of its own. *)
Theorem X2_Hash_collisions (md5_Sum : string -> Md5.Sum16) (a b : string) :
  Part001.Hash md5_Sum a = Part001.Hash md5_Sum b <->
  Md5.sum_bytes (md5_Sum a) = Md5.sum_bytes (md5_Sum b).
Proof.
  unfold Part001.Hash. cbv zeta. split.
  - apply EncodeToString_inj.
  - intros ->. reflexivity.
Qed.

(** ** [New] *)

(** The token [New] of [src/token.go] makes from the bytes a source
    delivers. *)
Lemma TokenGo_New_Entropy mw f :
  (TokenGo.TokenEntropy mw < 0 /\ TokenGo.New mw (Rand.Entropy f) = Panics) \/
  (0 <= TokenGo.TokenEntropy mw /\
   TokenGo.New mw (Rand.Entropy f)
   = Returns (EncodeToString
                (string_of_list_ascii
                   (map f (seq 0 (Z.to_nat (TokenGo.TokenEntropy mw))))),
              None)).
Proof.
  unfold TokenGo.New.
  destruct (Z.lt_ge_cases (TokenGo.TokenEntropy mw) 0) as [Hneg | Hpos].
  - left. rewrite make_bytes_negative by exact Hneg. auto.
  - right. split; [exact Hpos |].
    destruct (make_bytes_nonneg _ Hpos) as (zeros & -> & Hlen).
    cbn [Rand.Read]. rewrite Hlen. reflexivity.
Qed.

Lemma string_of_list_ascii_inj l1 l2 :
  string_of_list_ascii l1 = string_of_list_ascii l2 -> l1 = l2.
Proof.
  intros H. apply (f_equal list_ascii_of_string) in H.
  rewrite !list_ascii_of_string_of_list_ascii in H. exact H.
Qed.

(** X3.  Two calls of [New] on the same middleware return the same token
    exactly when the random source delivered the same bytes to both: the
    encoding loses none of the entropy. *)
Theorem X3_New_keeps_entropy (mw : TokenGo.AuthTokenMiddleware)
    (f g : nat -> ascii) (t u : string) :
  TokenGo.New mw (Rand.Entropy f) = Returns (t, None) ->
  TokenGo.New mw (Rand.Entropy g) = Returns (u, None) ->
  (t = u <->
   forall i, Z.of_nat i < TokenGo.TokenEntropy mw -> f i = g i).
Proof.
  intros Hf Hg.
  destruct (TokenGo_New_Entropy mw f) as [[_ Hp] | [Hn Hf']];
    [rewrite Hp in Hf; discriminate Hf |].
  destruct (TokenGo_New_Entropy mw g) as [[_ Hp] | [_ Hg']];
    [rewrite Hp in Hg; discriminate Hg |].
  rewrite Hf' in Hf. rewrite Hg' in Hg.
  injection Hf as <-. injection Hg as <-.
  split.
  - intros H i Hi. apply EncodeToString_inj, string_of_list_ascii_inj in H.
    apply (proj1 List.map_ext_in_iff H). apply in_seq. lia.
  - intros H. do 2 f_equal. apply List.map_ext_in. intros i Hi.
    apply in_seq in Hi. apply H. lia.
Qed.

(** X3 at a sample configuration: five bytes of entropy, the same source
    twice. *)
Lemma X3_New_keeps_entropy_witness :
  "QUJDREU=" = "QUJDREU=" <->
  forall i, Z.of_nat i < 5 -> Sample.counting i = Sample.counting i.
Proof.
  exact (X3_New_keeps_entropy (Sample.token_go None 5)
           Sample.counting Sample.counting "QUJDREU=" "QUJDREU="
           eq_refl eq_refl).
Defined.

(** X4.  When the random source delivers, [New] of [src/token.go] returns
    the empty string as the token, with no error, exactly when the entropy
    of the middleware is zero, as it is before setup has put the default in
    place. *)
Theorem X4_New_empty_token (mw : TokenGo.AuthTokenMiddleware)
    (f : nat -> ascii) (token : string) (err : option error) :
  TokenGo.New mw (Rand.Entropy f) = Returns (token, err) ->
  err = None /\ (token = EmptyString <-> TokenGo.TokenEntropy mw = 0).
Proof.
  intros Hnew.
  destruct (TokenGo_New_Entropy mw f) as [[_ Hp] | [Hn Hf]];
    [rewrite Hp in Hnew; discriminate Hnew |].
  rewrite Hf in Hnew. injection Hnew as <- <-. split; [reflexivity |].
  split.
  - intros Hempty. apply (f_equal String.length) in Hempty.
    apply (f_equal Z.of_nat) in Hempty.
    rewrite length_EncodeToString, length_string_of_list_ascii,
      length_map, length_seq, Z2Nat.id in Hempty by exact Hn.
    cbn [String.length] in Hempty. zdm.
  - intros ->. reflexivity.
Qed.

(** X4 at a sample configuration: the entropy left at zero. *)
Lemma X4_New_empty_token_witness :
  @None error = None /\ (EmptyString = EmptyString <-> 0 = 0).
Proof.
  exact (X4_New_empty_token (Sample.token_go None 0) Sample.counting
           EmptyString None eq_refl).
Defined.

(** ** A generated token on its way back through the gate *)

Lemma TokenGo_decode_encoded mw bytes :
  TokenGo.decodeAuthHeader mw ("Token " +:+ EncodeToString bytes) = (bytes, None).
Proof.
  destruct (TokenGo_decodeAuthHeader_cases mw ("Token " +:+ EncodeToString bytes))
    as [[Hno _] | [(value & Hp & Hd & _) | (value & token & Hp & Hd & ->)]].
  - destruct (Hno (EncodeToString bytes)). apply SplitN2_Token. reflexivity.
  - apply SplitN2_Token, String.app_inj in Hp. subst value.
    rewrite DecodeString_EncodeToString in Hd. discriminate Hd.
  - apply SplitN2_Token, String.app_inj in Hp. subst value.
    rewrite DecodeString_EncodeToString in Hd. congruence.
Qed.

Lemma Part001_decode_encoded bytes :
  Part001.decodeAuthHeader ("Token " +:+ EncodeToString bytes)
  = (EncodeToString bytes, None).
Proof.
  destruct (Part001_decodeAuthHeader_cases ("Token " +:+ EncodeToString bytes))
    as [[Hno _] | [(value & Hp & Hd & _) | (value & token & Hp & Hd & ->)]].
  - destruct (Hno (EncodeToString bytes)). apply SplitN2_Token. reflexivity.
  - apply SplitN2_Token, String.app_inj in Hp. subst value.
    rewrite DecodeString_EncodeToString in Hd. discriminate Hd.
  - apply SplitN2_Token, String.app_inj in Hp. subst value. reflexivity.
Qed.

(** A token [New] returned is the encoding of as many bytes as the entropy
    says. *)
Lemma TokenGo_New_success mw src token :
  TokenGo.New mw src = Returns (token, None) ->
  exists bytes,
    token = EncodeToString bytes /\
    Z.of_nat (String.length bytes) = TokenGo.TokenEntropy mw.
Proof.
  intros Hnew.
  destruct (Z.lt_ge_cases (TokenGo.TokenEntropy mw) 0) as [Hneg | Hpos].
  - unfold TokenGo.New in Hnew. rewrite make_bytes_negative in Hnew by exact Hneg.
    discriminate Hnew.
  - pose proof (TokenGo_New_cases mw src Hpos) as Hc.
    destruct src as [f | err].
    + destruct Hc as (bytes & Hb & Hlen). rewrite Hb in Hnew.
      injection Hnew as <-. eauto.
    + rewrite Hc in Hnew. discriminate Hnew.
Qed.

(** X5.  In [src/token.go], when a token [New] returned comes back in the
    header [Authorization: Token <token>], the decoder accepts it and the
    Authenticator is called with the decoded random bytes, as many as the
    entropy says, not with the token text: a token store must be keyed on
    the decoded bytes. *)
Theorem X5_generated_token_reaches_Authenticator_decoded
    (mw : TokenGo.AuthTokenMiddleware) (handler : HandlerFunc)
    (writer : ResponseWriter) (request : Request) (src : Rand.Source)
    (token : string) (served : Served) :
  TokenGo.New mw src = Returns (token, None) ->
  Get (Header request) "Authorization" = "Token " +:+ token ->
  TokenGo.gate mw handler writer request = Returns served ->
  exists bytes rest,
    token = EncodeToString bytes /\
    Z.of_nat (String.length bytes) = TokenGo.TokenEntropy mw /\
    calls served
    = CallDecodeAuthHeader ("Token " +:+ token) :: CallAuthenticator bytes :: rest.
Proof.
  intros Hnew Hheader Hserved.
  destruct (TokenGo_New_success _ _ _ Hnew) as (bytes & -> & Hlen).
  exists bytes.
  destruct (TokenGo_gate_inv _ _ _ _ _ Hserved)
    as [[Hh _] | [(_ & [err Herr] & _) |
         (_ & token & authenticator & Hd & _ & Hrest)]];
    rewrite Hheader in *.
  - discriminate Hh.
  - rewrite TokenGo_decode_encoded in Herr. discriminate Herr.
  - rewrite TokenGo_decode_encoded in Hd. injection Hd as <-.
    destruct Hrest as [[_ ->] | (_ & authorizer & _ & [[_ ->] | [_ ->]])];
      cbv zeta; cbn [calls app]; eexists; repeat split; try exact Hlen.
Qed.

(** X5 at a sample configuration: five random bytes the store does not
    know. *)
Lemma X5_generated_token_reaches_Authenticator_decoded_witness :
  exists bytes rest,
    "QUJDREU=" = EncodeToString bytes /\
    Z.of_nat (String.length bytes) = 5 /\
    [CallDecodeAuthHeader "Token QUJDREU="; CallAuthenticator "ABCDE";
     CallUnauthorized]
    = CallDecodeAuthHeader ("Token " +:+ "QUJDREU=") :: CallAuthenticator bytes :: rest.
Proof.
  exact (X5_generated_token_reaches_Authenticator_decoded
           (Sample.token_go (Some (fun _ => true)) 5) Sample.handler Sample.writer
           (Sample.request_with [] ["Token QUJDREU="])
           (Rand.Entropy Sample.counting) "QUJDREU="
           {| writer_of := Spec.rejection "api" Sample.writer;
              request_of := Sample.request_with [] ["Token QUJDREU="];
              calls := [CallDecodeAuthHeader "Token QUJDREU=";
                        CallAuthenticator "ABCDE"; CallUnauthorized] |}
           eq_refl eq_refl eq_refl).
Defined.

(** The calls of the later gate from the Authenticator on. *)
Lemma Part001_authenticate_calls mw handler writer request token made served :
  Part001.authenticate mw handler writer request token made = Returns served ->
  exists rest,
    calls served = made ++ CallAuthenticator token :: rest /\
    (forall t, ~ In (CallAuthenticator t) rest) /\
    (forall h, ~ In (CallDecodeAuthHeader h) rest).
Proof.
  intros Hauth.
  destruct (Part001_authenticate_inv _ _ _ _ _ _ _ Hauth)
    as (authenticator & _ & [[_ ->] | (_ & authorizer & _ & [[_ ->] | [_ ->]])]);
    cbv zeta; cbn [calls]; eexists; (split; [reflexivity |]);
    split; intros t Hin; in_calls Hin.
Qed.

Lemma Part001_New_success src token :
  Part001.New src = Returns (token, None) ->
  exists bytes,
    token = EncodeToString bytes /\ String.length bytes = 32%nat /\
    String.length token = 44%nat.
Proof.
  intros Hnew.
  rewrite (Part001_New_TokenGo (Sample.token_go None Part001.tokenEntropy))
    in Hnew by reflexivity.
  destruct (TokenGo_New_success _ _ _ Hnew) as (bytes & -> & Hlen).
  assert (Hlen32 : Z.of_nat (String.length bytes) = 32) by exact Hlen.
  exists bytes. split; [reflexivity |]. split; [lia |].
  apply Nat2Z.inj. rewrite length_EncodeToString, Hlen32. reflexivity.
Qed.

(** X6.  In [src/unnamed/part_001], when a token [New] returned comes back
    as the [access_token] query parameter, or with no query parameter in
    the header [Authorization: Token <token>], the Authenticator is called
    exactly once and with the token text itself, never with decoded bytes:
    here a token store must be keyed on the token as [New] returned it. *)
Theorem X6_generated_token_reaches_Authenticator_as_text
    (mw : Part001.AuthTokenMiddleware) (handler : HandlerFunc)
    (writer : ResponseWriter) (request : Request) (src : Rand.Source)
    (token : string) (served : Served) :
  Part001.New src = Returns (token, None) ->
  Get (URL_Query request) "access_token" = token \/
  (Get (URL_Query request) "access_token" = EmptyString /\
   Get (Header request) "Authorization" = "Token " +:+ token) ->
  Part001.gate mw handler writer request = Returns served ->
  exists before rest,
    calls served = before ++ CallAuthenticator token :: rest /\
    (forall t, ~ In (CallAuthenticator t) before) /\
    (forall t, ~ In (CallAuthenticator t) rest).
Proof.
  intros Hnew Hcred Hserved.
  destruct (Part001_New_success _ _ Hnew) as (bytes & -> & _ & Hlen).
  assert (Hne : EncodeToString bytes <> EmptyString).
  { intros E. rewrite E in Hlen. discriminate Hlen. }
  destruct (Part001_gate_inv _ _ _ _ _ Hserved)
    as [[Hq Hauth] | [(Hq & Hh & _) | [(Hq & _ & [err Herr] & _) |
         (Hq & _ & token & Hd & Hauth)]]].
  - destruct Hcred as [Hc | [Hc _]]; [| contradiction].
    rewrite Hc in Hauth.
    destruct (Part001_authenticate_calls _ _ _ _ _ _ _ Hauth)
      as (rest & Hcalls & Hna & _).
    exists [], rest. split; [exact Hcalls |]. split; [intros t [] | exact Hna].
  - destruct Hcred as [Hc | [_ Hc]]; [congruence |].
    rewrite Hc in Hh. discriminate Hh.
  - destruct Hcred as [Hc | [_ Hc]]; [congruence |].
    rewrite Hc, Part001_decode_encoded in Herr. discriminate Herr.
  - destruct Hcred as [Hc | [_ Hc]]; [congruence |].
    rewrite Hc in Hd, Hauth. rewrite Part001_decode_encoded in Hd.
    injection Hd as <-.
    destruct (Part001_authenticate_calls _ _ _ _ _ _ _ Hauth)
      as (rest & Hcalls & Hna & _).
    eexists _, rest. split; [exact Hcalls |]. split; [| exact Hna].
    intros t Hin. in_calls Hin.
Qed.

(** X6 at a sample request: the token of a counting source sent as the
    query parameter, unknown to the store. *)
Lemma X6_generated_token_reaches_Authenticator_as_text_witness :
  exists before rest,
    [CallAuthenticator "QUJDREVGR0hJSktMTU5PUFFSU1RVVldYWVpbXF1eX2A=";
     CallUnauthorized]
    = before
      ++ CallAuthenticator "QUJDREVGR0hJSktMTU5PUFFSU1RVVldYWVpbXF1eX2A=" :: rest /\
    (forall t, ~ In (CallAuthenticator t) before) /\
    (forall t, ~ In (CallAuthenticator t) rest).
Proof.
  exact (X6_generated_token_reaches_Authenticator_as_text
           (Sample.part_001 (Some (fun _ => true))) Sample.handler Sample.writer
           (Sample.request_with ["QUJDREVGR0hJSktMTU5PUFFSU1RVVldYWVpbXF1eX2A="] [])
           (Rand.Entropy Sample.counting)
           "QUJDREVGR0hJSktMTU5PUFFSU1RVVldYWVpbXF1eX2A="
           {| writer_of := Spec.rejection "api" Sample.writer;
              request_of :=
                Sample.request_with
                  ["QUJDREVGR0hJSktMTU5PUFFSU1RVVldYWVpbXF1eX2A="] [];
              calls :=
                [CallAuthenticator "QUJDREVGR0hJSktMTU5PUFFSU1RVVldYWVpbXF1eX2A=";
                 CallUnauthorized] |}
           eq_refl (or_introl eq_refl) eq_refl).
Defined.

(** ** [Token] after the gate *)

(** The request the wrapped handler is given differs from the incoming one
    in [Env] only. *)
Lemma Part001_handler_request mw handler writer request served r :
  Part001.gate mw handler writer request = Returns served ->
  In (CallHandler r) (calls served) ->
  exists token authenticator,
    Part001.Authenticator mw = Some authenticator /\
    In (CallAuthenticator token) (calls served) /\
    r = set_Env request "REMOTE_USER" (AnyString (authenticator token)) /\
    ((Get (URL_Query request) "access_token" <> EmptyString /\
      token = Get (URL_Query request) "access_token") \/
     (Get (URL_Query request) "access_token" = EmptyString /\
      Part001.decodeAuthHeader (Get (Header request) "Authorization")
      = (token, None))).
Proof.
  intros Hserved Hin.
  assert (Hstage : forall token made,
    Part001.authenticate mw handler writer request token made = Returns served ->
    (forall r', ~ In (CallHandler r') made) ->
    exists authenticator,
      Part001.Authenticator mw = Some authenticator /\
      In (CallAuthenticator token) (calls served) /\
      r = set_Env request "REMOTE_USER" (AnyString (authenticator token))).
  { intros token made Hauth Hnh.
    destruct (Part001_authenticate_inv _ _ _ _ _ _ _ Hauth)
      as (authenticator & Ha &
          [[_ E] | (_ & authorizer & _ & [[_ E] | [_ E]])]);
      cbv zeta in E; rewrite E in Hin |- *; cbn [calls] in Hin |- *;
      exists authenticator; (split; [exact Ha |]);
      apply in_app_or in Hin as [Hin | Hin];
      try (destruct (Hnh _ Hin)); in_calls Hin.
    injection Hin as <-. split; [| reflexivity].
    apply in_or_app. right. left. reflexivity. }
  destruct (Part001_gate_inv _ _ _ _ _ Hserved)
    as [[Hq Hauth] | [(_ & _ & E) | [(_ & _ & _ & E) |
         (Hq & _ & token & Hd & Hauth)]]].
  - destruct (Hstage _ _ Hauth) as (authenticator & Ha & Hc & Hr);
      [intros r' [] |].
    exists (Get (URL_Query request) "access_token"), authenticator.
    repeat split; try assumption. left. split; [exact Hq | reflexivity].
  - rewrite E in Hin. in_calls Hin.
  - rewrite E in Hin. in_calls Hin.
  - destruct (Hstage _ _ Hauth) as (authenticator & Ha & Hc & Hr);
      [intros r' Hin'; in_calls Hin' |].
    exists token, authenticator.
    repeat split; try assumption. right. split; [exact Hq | exact Hd].
Qed.

(** X7.  When the gate of [src/unnamed/part_001] forwards a request that
    carried its token in the Authorization header (no [access_token] query
    parameter), [Token] on the request the handler is given returns,
    without error, the very token the Authenticator was called with. *)
Theorem X7_Token_returns_authenticated_header_token
    (mw : Part001.AuthTokenMiddleware) (handler : HandlerFunc)
    (writer : ResponseWriter) (request : Request) (served : Served)
    (r : Request) :
  Part001.gate mw handler writer request = Returns served ->
  Get (URL_Query request) "access_token" = EmptyString ->
  In (CallHandler r) (calls served) ->
  exists token,
    Part001.Token r = (token, None) /\
    In (CallAuthenticator token) (calls served).
Proof.
  intros Hserved Hq Hin.
  destruct (Part001_handler_request _ _ _ _ _ _ Hserved Hin)
    as (token & authenticator & _ & Hc & -> & [[Hne _] | [_ Hd]]);
    [contradiction |].
  exists token. split; [exact Hd | exact Hc].
Qed.

(** X8.  [Token] reads the Authorization header only.  When the gate of
    [src/unnamed/part_001] forwards a request authenticated by its
    [access_token] query parameter, [Token] on the request the handler is
    given does not return that credential: it returns what the decoder
    makes of the header, and the malformed-header error with an empty token
    when there is no header. *)
Theorem X8_Token_misses_query_token
    (mw : Part001.AuthTokenMiddleware) (handler : HandlerFunc)
    (writer : ResponseWriter) (request : Request) (served : Served)
    (r : Request) :
  Part001.gate mw handler writer request = Returns served ->
  Get (URL_Query request) "access_token" <> EmptyString ->
  In (CallHandler r) (calls served) ->
  In (CallAuthenticator (Get (URL_Query request) "access_token")) (calls served) /\
  Part001.Token r
  = Part001.decodeAuthHeader (Get (Header request) "Authorization") /\
  (Get (Header request) "Authorization" = EmptyString ->
   Part001.Token r = (EmptyString, Some Part001.ErrInvalidHeader)).
Proof.
  intros Hserved Hq Hin.
  destruct (Part001_handler_request _ _ _ _ _ _ Hserved Hin)
    as (token & authenticator & _ & Hc & -> & [[_ ->] | [He _]]);
    [| contradiction].
  split; [exact Hc |]. split; [reflexivity |].
  intros Hh. unfold Part001.Token. cbn [set_Env Header]. rewrite Hh. reflexivity.
Qed.

(** X7 at a sample request: a header token, a store that accepts it. *)
Lemma X7_Token_returns_authenticated_header_token_witness :
  let request := Sample.request_with [] ["Token YWJj"] in
  let request' := set_Env request "REMOTE_USER" (AnyString "guest") in
  exists token,
    Part001.Token request' = (token, None) /\
    In (CallAuthenticator token)
       [CallDecodeAuthHeader "Token YWJj"; CallAuthenticator "YWJj";
        CallAuthorizer request; CallHandler request'].
Proof.
  intros request request'.
  exact (X7_Token_returns_authenticated_header_token
           {| Part001.Realm := "api";
              Part001.Authenticator := Some Sample.lookup_any;
              Part001.Authorizer := Some (fun _ => true) |}
           Sample.handler Sample.writer request
           {| writer_of := fst (Sample.handler Sample.writer request');
              request_of := request';
              calls := [CallDecodeAuthHeader "Token YWJj"; CallAuthenticator "YWJj";
                        CallAuthorizer request; CallHandler request'] |}
           request' eq_refl eq_refl
           (or_intror (or_intror (or_intror (or_introl eq_refl))))).
Defined.

(** X8 at a sample request: a query token and no header. *)
Lemma X8_Token_misses_query_token_witness :
  let request := Sample.request_with ["abc"] [] in
  let request' := set_Env request "REMOTE_USER" (AnyString "user-42") in
  In (CallAuthenticator "abc")
     [CallAuthenticator "abc"; CallAuthorizer request; CallHandler request'] /\
  Part001.Token request' = Part001.decodeAuthHeader EmptyString /\
  (EmptyString = EmptyString ->
   Part001.Token request' = (EmptyString, Some Part001.ErrInvalidHeader)).
Proof.
  intros request request'.
  exact (X8_Token_misses_query_token
           (Sample.part_001 (Some (fun _ => true)))
           Sample.handler Sample.writer request
           {| writer_of := fst (Sample.handler Sample.writer request');
              request_of := request';
              calls := [CallAuthenticator "abc"; CallAuthorizer request;
                        CallHandler request'] |}
           request' eq_refl ltac:(discriminate)
           (or_intror (or_intror (or_introl eq_refl)))).
Defined.

(** ** Setup, again *)

(** X9.  Setup settles the configuration once: when [MiddlewareFunc] has
    returned a gate, calling it again on the middleware it left, for any
    handler, is not fatal and changes nothing in the middleware. *)
Theorem X9_setup_is_idempotent
    (mw : TokenGo.AuthTokenMiddleware) (mw1 : Part001.AuthTokenMiddleware)
    (handler handler' : HandlerFunc) :
  (forall mw' serve,
     TokenGo.MiddlewareFunc mw handler = TokenGo.Ready mw' serve ->
     TokenGo.MiddlewareFunc mw' handler'
     = TokenGo.Ready mw' (TokenGo.gate mw' handler')) /\
  (forall mw' serve,
     Part001.MiddlewareFunc mw1 handler = Part001.Ready mw' serve ->
     Part001.MiddlewareFunc mw' handler'
     = Part001.Ready mw' (Part001.gate mw' handler')).
Proof.
  split; intros mw' serve Hready.
  - destruct (TokenGo_MiddlewareFunc_cases mw handler)
      as [[_ Hf] | [(_ & _ & Hf) | (Hrealm & authenticator & _ & Hr)]];
      try (rewrite Hf in Hready; discriminate Hready).
    cbv zeta in Hr. rewrite Hr in Hready. injection Hready as <- _.
    unfold TokenGo.MiddlewareFunc. cbn [TokenGo.Realm TokenGo.Authenticator
      TokenGo.Authorizer TokenGo.TokenEntropy].
    rewrite (eqb_empty_false _ Hrealm).
    destruct (TokenGo.TokenEntropy mw =? 0) eqn:Hz; [reflexivity |].
    rewrite Hz. reflexivity.
  - destruct (Part001_MiddlewareFunc_cases mw1 handler)
      as [[_ Hf] | [(_ & _ & Hf) | (Hrealm & authenticator & _ & Hr)]];
      try (rewrite Hf in Hready; discriminate Hready).
    cbv zeta in Hr. rewrite Hr in Hready. injection Hready as <- _.
    unfold Part001.MiddlewareFunc. cbn [Part001.Realm Part001.Authenticator
      Part001.Authorizer].
    rewrite (eqb_empty_false _ Hrealm). reflexivity.
Qed.

(** X9 at a sample configuration with the Authorizer and the entropy left
    unset. *)
Lemma X9_setup_is_idempotent_witness :
  TokenGo.MiddlewareFunc (Sample.token_go (Some (fun _ => true)) 32) Sample.handler
  = TokenGo.Ready (Sample.token_go (Some (fun _ => true)) 32)
      (TokenGo.gate (Sample.token_go (Some (fun _ => true)) 32) Sample.handler).
Proof.
  exact (proj1 (X9_setup_is_idempotent (Sample.token_go None 0)
                  (Sample.part_001 None) Sample.handler Sample.handler)
               _ _ eq_refl).
Defined.

(** ** The order of the callbacks *)



(** ** What the decoders return *)

(** X11.  What the header decoders hand back.  With an error the token is
    the empty string.  Without one, the decoder of [src/token.go] returns
    the decoded bytes of the value that follows [Token] and a space, and
    the decoder of [src/unnamed/part_001] returns that value itself, which
    is well-formed base64: the header is [Token], a space, and the token. *)
Theorem X11_decoder_results (mw : TokenGo.AuthTokenMiddleware) (header : string) :
  match TokenGo.decodeAuthHeader mw header with
  | (token, None) =>
      exists value, header = "Token " +:+ value /\ DecodeString value = Some token
  | (token, Some _) => token = EmptyString
  end /\
  match Part001.decodeAuthHeader header with
  | (token, None) => header = "Token " +:+ token /\ well_formed token = true
  | (token, Some _) => token = EmptyString
  end.
Proof.
  split.
  - destruct (TokenGo_decodeAuthHeader_cases mw header)
      as [[_ ->] | [(value & _ & _ & ->) | (value & token & Hp & Hd & ->)]];
      try reflexivity.
    exists value. split; [apply SplitN2_Token, Hp | exact Hd].
  - destruct (Part001_decodeAuthHeader_cases header)
      as [[_ ->] | [(value & _ & _ & ->) | (value & token & Hp & Hd & ->)]];
      try reflexivity.
    split; [apply SplitN2_Token, Hp |].
    apply DecodeString_well_formed. congruence.
Qed.

Lemma TokenGo_decode_value mw value token :
  DecodeString value = Some token ->
  TokenGo.decodeAuthHeader mw ("Token " +:+ value) = (token, None).
Proof.
  intros Hvalue.
  destruct (TokenGo_decodeAuthHeader_cases mw ("Token " +:+ value))
    as [[Hno _] | [(v & Hp & Hd & _) | (v & t & Hp & Hd & ->)]].
  - destruct (Hno value). apply SplitN2_Token. reflexivity.
  - apply SplitN2_Token, String.app_inj in Hp. subst v. congruence.
  - apply SplitN2_Token, String.app_inj in Hp. subst v. congruence.
Qed.

(** The encoding of one byte with an unused low bit of the second symbol
    set decodes to the same byte. *)
Lemma loose_bits_decode b :
  let val := val3 b "000"%char "000"%char in
  DecodeString
    (String (sextet val 18)
       (String (encode (Z.shiftr val 12 mod 64 + 1))
          (String padChar (String padChar EmptyString))))
  = Some (String b EmptyString).
Proof.
  intros val.
  assert (Hrange : 0 <= Z.shiftr val 12 mod 64 + 1 < 64).
  { subst val. rewrite val3_add, uint_0. pose proof (uint_range b).
    rewrite Z.shiftr_div_pow2 by lia. change (2 ^ 12) with 4096. zdm. }
  unfold DecodeString.
  rewrite decode_symbol by apply sextet_symbol.
  rewrite decodeMap_sextet. cbn [app length Nat.eqb].
  rewrite decode_symbol by (rewrite decodeMap_encode by exact Hrange; lia).
  rewrite decodeMap_encode by exact Hrange. cbn [app length Nat.eqb].
  rewrite decode_pad2. f_equal.
  unfold quantum. cbn [nth length Nat.sub take string_of_list_ascii].
  rewrite assemble_add by (try exact Hrange; zdm).
  f_equal. apply byte_uint.
  subst val. rewrite val3_add, uint_0 in *. pose proof (uint_range b).
  rewrite !Z.shiftr_div_pow2 in * by lia.
  change (2 ^ 18) with 262144 in *. change (2 ^ 12) with 4096 in *.
  change (2 ^ 16) with 65536. zdm.
Qed.

(** X12.  The decoder of [src/unnamed/part_001] returns a given token for
    one header only.  The decoder of [src/token.go] does not: every
    one-byte token is what it returns for two different headers, the
    encoding of the byte and the same text with an unused low bit set, so
    several wire forms reach the Authenticator as one token. *)
Theorem X12_wire_forms_of_a_token (mw : TokenGo.AuthTokenMiddleware) :
  (forall h1 h2 token,
     Part001.decodeAuthHeader h1 = (token, None) ->
     Part001.decodeAuthHeader h2 = (token, None) ->
     h1 = h2) /\
  (forall b : ascii,
     exists h1 h2,
       h1 <> h2 /\
       TokenGo.decodeAuthHeader mw h1 = (String b EmptyString, None) /\
       TokenGo.decodeAuthHeader mw h2 = (String b EmptyString, None)).
Proof.
  split.
  - intros h1 h2 token H1 H2.
    destruct (Part001_decodeAuthHeader_cases h1)
      as [[_ E] | [(v & _ & _ & E) | (v & t & Hp1 & _ & E)]];
      rewrite E in H1; try discriminate H1.
    destruct (Part001_decodeAuthHeader_cases h2)
      as [[_ E'] | [(v' & _ & _ & E') | (v' & t' & Hp2 & _ & E')]];
      rewrite E' in H2; try discriminate H2.
    injection H1 as ->. injection H2 as ->.
    apply SplitN2_Token in Hp1, Hp2. congruence.
  - intros b.
    set (val := val3 b "000"%char "000"%char).
    exists ("Token " +:+ EncodeToString (String b EmptyString)).
    exists ("Token " +:+
            String (sextet val 18)
              (String (encode (Z.shiftr val 12 mod 64 + 1))
                 (String padChar (String padChar EmptyString)))).
    split; [| split].
    + intros E. apply String.app_inj in E. cbn [EncodeToString] in E.
      rewrite val3_tail1 in E. fold val in E.
      injection E as E. apply (f_equal decodeMap) in E.
      rewrite decodeMap_sextet in E.
      rewrite decodeMap_encode in E; [lia |].
      subst val. rewrite val3_add, uint_0. pose proof (uint_range b).
      rewrite Z.shiftr_div_pow2 by lia. change (2 ^ 12) with 4096. zdm.
    + apply TokenGo_decode_encoded.
    + apply TokenGo_decode_value, loose_bits_decode.
Qed.

(** ** What the wrapped handler is given *)

(** X13.  On success the user ID is made available as
    [request.Env["REMOTE_USER"]], a string: the handler is given a request
    whose [Env] holds under [REMOTE_USER] the identity the Authenticator
    returned, which is not empty and takes the place of any entry that was
    there, while every other [Env] key, the headers and the query are as
    they came in. *)
Theorem X13_handler_sees_identity
    (mw : TokenGo.AuthTokenMiddleware) (mw1 : Part001.AuthTokenMiddleware)
    (handler : HandlerFunc) (writer : ResponseWriter) (request : Request) :
  (forall served r,
     TokenGo.gate mw handler writer request = Returns served ->
     In (CallHandler r) (calls served) ->
     exists token authenticator,
       TokenGo.Authenticator mw = Some authenticator /\
       In (CallAuthenticator token) (calls served) /\
       authenticator token <> EmptyString /\
       Env r !! "REMOTE_USER" = Some (AnyString (authenticator token)) /\
       (forall key, key <> "REMOTE_USER" -> Env r !! key = Env request !! key) /\
       Header r = Header request /\
       URL_Query r = URL_Query request) /\
  (forall served r,
     Part001.gate mw1 handler writer request = Returns served ->
     In (CallHandler r) (calls served) ->
     exists token authenticator,
       Part001.Authenticator mw1 = Some authenticator /\
       In (CallAuthenticator token) (calls served) /\
       authenticator token <> EmptyString /\
       Env r !! "REMOTE_USER" = Some (AnyString (authenticator token)) /\
       (forall key, key <> "REMOTE_USER" -> Env r !! key = Env request !! key) /\
       Header r = Header request /\
       URL_Query r = URL_Query request).
Proof.
  split; intros served r Hserved Hin.
  - destruct (TokenGo_gate_inv _ _ _ _ _ Hserved)
      as [[_ E] | [(_ & _ & E) | (_ & token & authenticator & Hd & Ha &
           [[_ E] | (Hid & authorizer & _ & [[_ E] | [_ E]])])]];
      cbv zeta in E; rewrite E in Hin |- *; cbn [calls app] in Hin |- *;
      in_calls Hin.
    injection Hin as <-. exists token, authenticator.
    cbn [set_Env Env Header URL_Query].
    repeat split; try assumption.
    + cbn. tauto.
    + apply lookup_insert_eq.
    + intros key Hkey. apply lookup_insert_ne. congruence.
  - assert (Hstage : forall token made,
      Part001.authenticate mw1 handler writer request token made = Returns served ->
      (forall r', ~ In (CallHandler r') made) ->
      exists authenticator,
        Part001.Authenticator mw1 = Some authenticator /\
        In (CallAuthenticator token) (calls served) /\
        authenticator token <> EmptyString /\
        r = set_Env request "REMOTE_USER" (AnyString (authenticator token))).
    { intros token made Hauth Hnh.
      destruct (Part001_authenticate_inv _ _ _ _ _ _ _ Hauth)
        as (authenticator & Ha &
            [[_ E] | (Hid & authorizer & _ & [[_ E] | [_ E]])]);
        cbv zeta in E; rewrite E in Hin |- *; cbn [calls] in Hin |- *;
        exists authenticator; (split; [exact Ha |]);
        apply in_app_or in Hin as [Hin | Hin];
        try (destruct (Hnh _ Hin)); in_calls Hin.
      injection Hin as <-. split; [| split; [exact Hid | reflexivity]].
      apply in_or_app. right. left. reflexivity. }
    assert (Hr : exists token authenticator,
      Part001.Authenticator mw1 = Some authenticator /\
      In (CallAuthenticator token) (calls served) /\
      authenticator token <> EmptyString /\
      r = set_Env request "REMOTE_USER" (AnyString (authenticator token))).
    { destruct (Part001_gate_inv _ _ _ _ _ Hserved)
        as [[_ Hauth] | [(_ & _ & E) | [(_ & _ & _ & E) |
             (_ & _ & token & _ & Hauth)]]].
      - destruct (Hstage _ _ Hauth) as (authenticator & H);
          [intros r' [] | eauto].
      - rewrite E in Hin. in_calls Hin.
      - rewrite E in Hin. in_calls Hin.
      - destruct (Hstage _ _ Hauth) as (authenticator & H);
          [intros r' Hin'; in_calls Hin' | eauto]. }
    destruct Hr as (token & authenticator & Ha & Hc & Hid & ->).
    exists token, authenticator. cbn [set_Env Env Header URL_Query].
    repeat split; try assumption.
    + apply lookup_insert_eq.
    + intros key Hkey. apply lookup_insert_ne. congruence.
Qed.

(** X13 at a sample request whose [Env] already holds entries. *)
Lemma X13_handler_sees_identity_witness :
  let request :=
    {| URL_Query := ∅;
       Header := {[ "Authorization" := ["Token YWJj"] ]};
       Env := {[ "REMOTE_USER" := AnyString "root"; "trace" := AnyOther 7 ]} |} in
  let request' := set_Env request "REMOTE_USER" (AnyString "user-42") in
  exists token authenticator,
    Some Sample.lookup = Some authenticator /\
    In (CallAuthenticator token)
       [CallDecodeAuthHeader "Token YWJj"; CallAuthenticator "abc";
        CallAuthorizer request; CallHandler request'] /\
    authenticator token <> EmptyString /\
    Env request' !! "REMOTE_USER" = Some (AnyString (authenticator token)) /\
    (forall key, key <> "REMOTE_USER" -> Env request' !! key = Env request !! key) /\
    Header request' = Header request /\
    URL_Query request' = URL_Query request.
Proof.
  intros request request'.
  exact (proj1 (X13_handler_sees_identity
                  (Sample.token_go (Some (fun _ => true)) 32) (Sample.part_001 None)
                  Sample.handler Sample.writer request)
               {| writer_of := fst (Sample.handler Sample.writer request');
                  request_of := request';
                  calls := [CallDecodeAuthHeader "Token YWJj"; CallAuthenticator "abc";
                            CallAuthorizer request; CallHandler request'] |}
               request' eq_refl
               (or_intror (or_intror (or_intror (or_introl eq_refl))))).
Defined.

(** ** The two revisions side by side *)

(** X14.  For a request with no [access_token] query parameter, the gate
    of [src/unnamed/part_001] whose Authenticator first base64-decodes the
    token it is given and then asks the Authenticator of a
    [src/token.go] gate answers as that gate does: both return, with the
    same response and the same request, and one rejects exactly when the
    other does. *)
Theorem X14_later_gate_with_decoding_Authenticator
    (realm : string) (authenticator : string -> string)
    (authorizer : Request -> bool) (entropy : Z)
    (handler : HandlerFunc) (writer : ResponseWriter) (request : Request) :
  Get (URL_Query request) "access_token" = EmptyString ->
  exists earlier later,
    TokenGo.gate
      {| TokenGo.Realm := realm;
         TokenGo.Authenticator := Some authenticator;
         TokenGo.Authorizer := Some authorizer;
         TokenGo.TokenEntropy := entropy |}
      handler writer request = Returns earlier /\
    Part001.gate
      {| Part001.Realm := realm;
         Part001.Authenticator :=
           Some (fun value =>
                   match DecodeString value with
                   | Some token => authenticator token
                   | None => EmptyString
                   end);
         Part001.Authorizer := Some authorizer |}
      handler writer request = Returns later /\
    writer_of earlier = writer_of later /\
    request_of earlier = request_of later /\
    (rejected earlier <-> rejected later).
Proof.
  intros Hq.
  unfold TokenGo.gate, Part001.gate, Part001.authenticate,
    TokenGo.reject, Part001.reject.
  rewrite Hq. cbn [String.length Nat.ltb Nat.leb].
  cbn [TokenGo.Authenticator TokenGo.Authorizer
       Part001.Authenticator Part001.Authorizer].
  destruct (String.eqb (Get (Header request) "Authorization") EmptyString).
  { eexists _, _. repeat split; unfold rejected; cbn; tauto. }
  unfold TokenGo.decodeAuthHeader, Part001.decodeAuthHeader.
  destruct (scheme_test (Get (Header request) "Authorization"))
    as [[-> (value & _ & ->)] | [-> _]]; cbn [negb].
  2:{ eexists _, _. repeat split; unfold rejected; cbn; tauto. }
  destruct (DecodeString value) as [token |] eqn:Hd.
  2:{ eexists _, _. repeat split; unfold rejected; cbn; tauto. }
  rewrite Hd.
  destruct (String.eqb (authenticator token) EmptyString).
  { eexists _, _. repeat split; unfold rejected; cbn; tauto. }
  destruct (authorizer request); cbn [negb].
  2:{ eexists _, _. repeat split; unfold rejected; cbn; tauto. }
  destruct (handler writer _) as [writer' request'].
  eexists _, _. repeat split; unfold rejected; cbn; intros H; in_calls H.
Qed.

(** X14 at a sample request. *)
Lemma X14_later_gate_with_decoding_Authenticator_witness :
  exists earlier later,
    TokenGo.gate (Sample.token_go (Some (fun _ => true)) 32)
      Sample.handler Sample.writer (Sample.request_with [] ["Token YWJj"])
    = Returns earlier /\
    Part001.gate
      {| Part001.Realm := "api";
         Part001.Authenticator :=
           Some (fun value =>
                   match DecodeString value with
                   | Some token => Sample.lookup token
                   | None => EmptyString
                   end);
         Part001.Authorizer := Some (fun _ => true) |}
      Sample.handler Sample.writer (Sample.request_with [] ["Token YWJj"])
    = Returns later /\
    writer_of earlier = writer_of later /\
    request_of earlier = request_of later /\
    (rejected earlier <-> rejected later).
Proof.
  exact (X14_later_gate_with_decoding_Authenticator "api" Sample.lookup
           (fun _ => true) 32 Sample.handler Sample.writer
           (Sample.request_with [] ["Token YWJj"]) eq_refl).
Defined.
